(** * API Testing Automation Suite: the validation and reporting engine

    A shallow embedding of [api_tests/core_tester.py], [api_tests/http_client.py],
    [api_tests/config.py] and the summary printer of [run_tests.py], followed by
    the properties of the engine.

    Python values are represented as follows.
    - [int] is [Z]; [str] is [string]; [Optional[T]] is [option T].
    - [float] is a binary64 number, given by the [spec_float] of the standard
      library with precision 53 and maximal exponent 1024.
    - a parsed JSON document is the inductive [json]; a [dict] is a [gmap]
      from [string] keys.
    - a raised exception is a value of [outcome]; code that mutates the suite
      or talks to the network runs in the monad [M].  Exceptions are those
      below [Exception], which is what [except Exception] catches.
    - of the logging calls only the line of [_log_result] is kept, in the
      [log] of the state; the progress and traceback lines go to the same
      sink and no result depends on them.  Creating directories is not
      modelled; writing a file replaces its content in [files]. *)

From Stdlib Require Import ZArith String Ascii List Bool Lia DecimalString.
From Stdlib Require Import Floats.SpecFloat.
From stdpp Require Import gmap strings list.

Local Open Scope list_scope.
Local Open Scope Z_scope.

(* ===================================================================== *)
(** ** Python strings *)
(* ===================================================================== *)

Module PyStr.

(** [s.split(sep)] for a one-character separator: never empty, and the
    empty string splits into one empty segment. *)
Fixpoint split (sep : ascii) (s : string) : list string :=
  match s with
  | EmptyString => [EmptyString]
  | String c s' =>
      if Ascii.eqb c sep then EmptyString :: split sep s'
      else match split sep s' with
           | [] => [String c EmptyString]
           | seg :: segs => String c seg :: segs
           end
  end.

(** [sep.join(l)] *)
Fixpoint join (sep : string) (l : list string) : string :=
  match l with
  | [] => EmptyString
  | [x] => x
  | x :: rest => x +:+ sep +:+ join sep rest
  end.

(** [s.lstrip(c)] and [s.rstrip(c)] for a one-character set. *)
Fixpoint lstrip (c : ascii) (s : string) : string :=
  match s with
  | EmptyString => EmptyString
  | String a s' => if Ascii.eqb a c then lstrip c s' else s
  end.

Fixpoint rstrip (c : ascii) (s : string) : string :=
  match s with
  | EmptyString => EmptyString
  | String a s' =>
      match rstrip c s' with
      | EmptyString => if Ascii.eqb a c then EmptyString else String a EmptyString
      | t => String a t
      end
  end.

Definition startswith (s p : string) : bool := String.prefix p s.

(** [format(s, "<w")]: pad with spaces on the right up to width [w]. *)
Fixpoint spaces (n : nat) : string :=
  match n with
  | O => EmptyString
  | S k => String " " (spaces k)
  end.

Definition ljust (w : nat) (s : string) : string :=
  s +:+ spaces (w - String.length s).

(** [str(z)] for an [int]. *)
Definition of_int (z : Z) : string := NilZero.string_of_int (Z.to_int z).

(** [c in s] for a character. *)
Fixpoint has_char (c : ascii) (s : string) : bool :=
  match s with
  | EmptyString => false
  | String a s' => Ascii.eqb a c || has_char c s'
  end.

(** [m in s] for strings: [m] occurs in [s] as a contiguous block. *)
Definition occurs_in (m s : string) : Prop :=
  exists pre post : string, s = pre +:+ m +:+ post.

End PyStr.

(* ===================================================================== *)
(** ** Python floats (binary64) *)
(* ===================================================================== *)

Module PyFloat.

Definition prec : Z := 53.
Definition emax : Z := 1024.

Definition float : Type := spec_float.

(** The float nearest to an integer: [float(z)]. *)
Definition of_Z (z : Z) : float := binary_normalize prec emax z 0 false.

Definition mul (x y : float) : float := SFmul prec emax x y.

(** [x > y] *)
Definition gt (x y : float) : bool := SFltb y x.

(** [x == y] *)
Definition eq (x y : float) : bool := SFeqb x y.

(** [bool(x)]: a float is falsy exactly when it is a zero. *)
Definition truthy (x : float) : bool :=
  match x with
  | S754_zero _ => false
  | _ => true
  end.

(** [n / d] rounded to the nearest integer, ties to the even one
    ([0 <= n], [0 < d]). *)
Definition round_half_even (n d : Z) : Z :=
  let q := n / d in
  let r := n mod d in
  match 2 * r ?= d with
  | Lt => q
  | Gt => q + 1
  | Eq => if Z.even q then q else q + 1
  end.

Definition two_digits (n : Z) : string :=
  if n <? 10 then "0" +:+ PyStr.of_int n else PyStr.of_int n.

(** Sign, integer part, point and two decimals of a count of hundredths. *)
Definition fixed2 (s : bool) (hundredths : Z) : string :=
  (if s then "-" else "") +:+ PyStr.of_int (hundredths / 100)
    +:+ "." +:+ two_digits (hundredths mod 100).

(** [format(x, ".2f")]: the exact binary value, correctly rounded to two
    decimals. *)
Definition format_2f (x : float) : string :=
  match x with
  | S754_nan => "nan"
  | S754_infinity s => if s then "-inf" else "inf"
  | S754_zero s => fixed2 s 0
  | S754_finite s m e =>
      fixed2 s match e with
               | Zneg p => round_half_even (100 * Zpos m) (2 ^ Zpos p)
               | _ => 100 * Zpos m * 2 ^ e
               end
  end.

End PyFloat.

Abbreviation float := PyFloat.float.

(* ===================================================================== *)
(** ** Parsed JSON documents *)
(* ===================================================================== *)

#[warnings="-register-all"] Inductive json : Type :=
  | JNull
  | JBool (b : bool)
  | JInt (z : Z)
  | JFloat (f : float)
  | JStr (s : string)
  | JList (l : list json)
  | JDict (d : gmap string json).

(** [isinstance(current, dict)] *)
Definition isinstance_dict (current : json) : bool :=
  match current with
  | JDict _ => true
  | _ => false
  end.

(** [part in current] for a dict, [current[part]] for a key that is there. *)
Definition dict_contains (part : string) (current : json) : bool :=
  match current with
  | JDict d => bool_decide (is_Some (d !! part))
  | _ => false
  end.

Definition dict_getitem (current : json) (part : string) : option json :=
  match current with
  | JDict d => d !! part
  | _ => None
  end.

(** The [for part in parts] loop of [_has_json_path], from the value
    [current] reached so far. *)
Fixpoint has_json_path_loop (parts : list string) (current : json) : bool :=
  match parts with
  | [] => true
  | part :: parts' =>
      if negb (isinstance_dict current) || negb (dict_contains part current)
      then false
      else match dict_getitem current part with
           | Some next => has_json_path_loop parts' next
           | None => false
           end
  end.

(** [APITestSuite._has_json_path] *)
Definition _has_json_path (payload : json) (path : string) : bool :=
  let parts := PyStr.split "." path in
  has_json_path_loop parts payload.

(** The walk of the specification: every segment, left to right, is a key
    of the mapping reached so far. *)
Inductive resolves : json -> list string -> Prop :=
  | resolves_nil (doc : json) : resolves doc []
  | resolves_cons (d : gmap string json) (key : string) (next : json)
      (keys : list string) :
      d !! key = Some next ->
      resolves next keys ->
      resolves (JDict d) (key :: keys).

(** Where the walk stops: a segment whose mapping is missing or lacks it. *)
Inductive stuck : json -> list string -> Prop :=
  | stuck_here (doc : json) (key : string) (keys : list string) :
      dict_getitem doc key = None ->
      stuck doc (key :: keys)
  | stuck_later (d : gmap string json) (key : string) (next : json)
      (keys : list string) :
      d !! key = Some next ->
      stuck next keys ->
      stuck (JDict d) (key :: keys).

(* ===================================================================== *)
(** ** Exceptions and results of calls *)
(* ===================================================================== *)

(** The exception classes the code tells apart.  [requests]' own decode
    error derives from both [RequestException] and [json.JSONDecodeError];
    [APIClientError] is a [RuntimeError]; every class derives from
    [Exception]. *)
Inductive exc_class : Type :=
  | APIClientError
  | RequestException
  | JSONDecodeError
  | RequestsJSONDecodeError
  | OtherException.

Record exn : Type := Exn { exn_class : exc_class; exn_str : string }.

Definition isinstance_RequestException (e : exn) : bool :=
  match exn_class e with
  | RequestException | RequestsJSONDecodeError => true
  | _ => false
  end.

Definition isinstance_JSONDecodeError (e : exn) : bool :=
  match exn_class e with
  | JSONDecodeError | RequestsJSONDecodeError => true
  | _ => false
  end.

Inductive outcome (A : Type) : Type :=
  | Returned (a : A)
  | Raised (e : exn).
Arguments Returned {A} a.
Arguments Raised {A} e.

(* ===================================================================== *)
(** ** Data model *)
(* ===================================================================== *)

(** [config.Config] *)
Record Config : Type := {
  base_url : string;
  timeout : float;
  max_response_time_ms : float;
  logs_dir : string;
  reports_dir : string
}.

(** What the code reads of a [requests.Response]: [status_code],
    [elapsed.total_seconds()] and the result of [json()]. *)
Record Response : Type := {
  resp_status_code : Z;
  resp_elapsed_total_seconds : float;
  resp_json : outcome json
}.

(** [core_tester.TestResult] *)
Record TestResult : Type := {
  name : string;
  success : bool;
  status_code : option Z;
  response_time_ms : option float;
  details : string
}.

(** A call of [requests.get] or [requests.post]. *)
Record Request : Type := {
  req_method : string;
  req_url : string;
  req_json : option json;
  req_timeout : float;
  req_headers : list (string * string)
}.

(** The suite object ([config], [results]) together with the world it acts
    on: the remote side, which answers the n-th request issued, the log
    sink, the files written and the console. *)
Record State : Type := {
  config : Config;
  results : list TestResult;
  network : nat -> Request -> outcome Response;
  requests_made : nat;
  log : list string;
  files : gmap string string;
  stdout : list string
}.

Definition set_results (f : list TestResult -> list TestResult) (st : State) : State :=
  {| config := config st; results := f (results st); network := network st;
     requests_made := requests_made st; log := log st; files := files st;
     stdout := stdout st |}.

Definition set_requests_made (f : nat -> nat) (st : State) : State :=
  {| config := config st; results := results st; network := network st;
     requests_made := f (requests_made st); log := log st; files := files st;
     stdout := stdout st |}.

Definition set_log (f : list string -> list string) (st : State) : State :=
  {| config := config st; results := results st; network := network st;
     requests_made := requests_made st; log := f (log st); files := files st;
     stdout := stdout st |}.

Definition set_files (f : gmap string string -> gmap string string) (st : State) : State :=
  {| config := config st; results := results st; network := network st;
     requests_made := requests_made st; log := log st; files := f (files st);
     stdout := stdout st |}.


(* ===================================================================== *)
(** ** The monad of stateful code that may raise *)
(* ===================================================================== *)

Definition M (A : Type) : Type := State -> outcome A * State.

Definition ret {A : Type} (a : A) : M A := fun st => (Returned a, st).

Definition raise {A : Type} (e : exn) : M A := fun st => (Raised e, st).

Definition bind {A B : Type} (m : M A) (k : A -> M B) : M B :=
  fun st =>
    match m st with
    | (Returned a, st') => k a st'
    | (Raised e, st') => (Raised e, st')
    end.

(** [try: m except Exception as exc: handler exc].  Effects of [m] before
    the exception are kept. *)
Definition try_except {A : Type} (m : M A) (handler : exn -> M A) : M A :=
  fun st =>
    match m st with
    | (Returned a, st') => (Returned a, st')
    | (Raised e, st') => handler e st'
    end.

(** Read-only use of [self]. *)
Definition with_self {A : Type} (f : State -> outcome A) : M A :=
  fun st => (f st, st).

Definition modify (f : State -> State) : M unit :=
  fun st => (Returned tt, f st).

Notation "x <- c ;; k" := (bind c (fun x => k))
  (at level 100, c at next level, right associativity).
Notation "c ;; k" := (bind c (fun _ => k))
  (at level 100, right associativity).

(* ===================================================================== *)
(** ** [http_client.HttpClient] *)
(* ===================================================================== *)

(** One call into [requests]: the remote side answers, the count of issued
    requests grows. *)
Definition requests_request (rq : Request) : M Response :=
  fun st => (network st (requests_made st) rq, set_requests_made S st).

Module HttpClient.

Definition headers : list (string * string) :=
  [("User-Agent", "API-Testing-Automation-Suite/1.0")].

Definition _build_url (cfg : Config) (path : string) : string :=
  if PyStr.startswith path "http://" || PyStr.startswith path "https://"
  then path
  else PyStr.rstrip "/" (base_url cfg) +:+ "/" +:+ PyStr.lstrip "/" path.

(** [except requests.RequestException as exc: raise APIClientError(str(exc))];
    any other exception passes through. *)
Definition rewrap (exc : exn) : M Response :=
  if isinstance_RequestException exc
  then raise (Exn APIClientError (exn_str exc))
  else raise exc.

Definition get (path : string) : M Response :=
  fun st =>
    let url := _build_url (config st) path in
    try_except
      (requests_request {| req_method := "GET"; req_url := url;
                           req_json := None;
                           req_timeout := timeout (config st);
                           req_headers := headers |})
      rewrap st.

Definition post (path : string) (json_ : option json) : M Response :=
  fun st =>
    let url := _build_url (config st) path in
    try_except
      (requests_request {| req_method := "POST"; req_url := url;
                           req_json := json_;
                           req_timeout := timeout (config st);
                           req_headers := headers |})
      rewrap st.

End HttpClient.

(* ===================================================================== *)
(** ** [core_tester.APITestSuite] *)
(* ===================================================================== *)

Definition status_message (expected_status status_code : Z) : string :=
  "Expected status " +:+ PyStr.of_int expected_status +:+ ", got "
    +:+ PyStr.of_int status_code +:+ ".".

Definition latency_message (elapsed_ms limit : float) : string :=
  "Response time " +:+ PyFloat.format_2f elapsed_ms +:+ " ms exceeded "
    +:+ "limit " +:+ PyFloat.format_2f limit +:+ " ms.".

Definition invalid_json_message : string := "Response is not valid JSON.".

Definition missing_path_message (path : string) : string :=
  "Missing JSON path: " +:+ path.

Definition all_checks_passed : string := "All checks passed.".

Definition exception_message (exc : exn) : string :=
  "Exception while executing test: " +:+ exn_str exc.

(** [response.elapsed.total_seconds() * 1000] *)
Definition elapsed_ms_of (response : Response) : float :=
  PyFloat.mul (resp_elapsed_total_seconds response) (PyFloat.of_Z 1000).

(** [if required_json_paths:] holds for a list that is there and not empty. *)
Definition paths_truthy (required_json_paths : option (list string)) : bool :=
  match required_json_paths with
  | Some (_ :: _) => true
  | _ => false
  end.

Definition paths_of (required_json_paths : option (list string)) : list string :=
  match required_json_paths with
  | Some l => l
  | None => []
  end.

(** One turn of [for path in required_json_paths], on the two locals
    [success] and [details_list]. *)
Definition check_path (payload : json) (acc : bool * list string) (path : string)
  : bool * list string :=
  let '(success, details_list) := acc in
  if negb (_has_json_path payload path)
  then (false, details_list ++ [missing_path_message path])
  else (success, details_list).

(** The three checks of [_validate_response], from the first assignment of
    [details_list] and [success] up to the end of the JSON branch.  It gives
    the final values of the two locals, or the exception that [json()]
    raised and the [except json.JSONDecodeError] clause let through. *)
Definition run_checks (self : State) (response : Response) (expected_status : Z)
    (required_json_paths : option (list string)) : outcome (bool * list string) :=
  let status_code := resp_status_code response in
  let elapsed_ms := elapsed_ms_of response in
  let details_list : list string := [] in
  let success := true in
  let '(success, details_list) :=
    if negb (status_code =? expected_status)
    then (false, details_list ++ [status_message expected_status status_code])
    else (success, details_list) in
  let '(success, details_list) :=
    if PyFloat.gt elapsed_ms (max_response_time_ms (config self))
    then (false, details_list ++
                   [latency_message elapsed_ms (max_response_time_ms (config self))])
    else (success, details_list) in
  if paths_truthy required_json_paths
  then match resp_json response with
       | Raised exc =>
           if isinstance_JSONDecodeError exc
           then Returned (false, details_list ++ [invalid_json_message])
           else Raised exc
       | Returned payload =>
           Returned (fold_left (check_path payload) (paths_of required_json_paths)
                       (success, details_list))
       end
  else Returned (success, details_list).

(** [APITestSuite._validate_response] *)
Definition _validate_response (self : State) (name : string) (response : Response)
    (expected_status : Z) (required_json_paths : option (list string))
  : outcome TestResult :=
  match run_checks self response expected_status required_json_paths with
  | Raised exc => Raised exc
  | Returned (success, details_list) =>
      let details_list :=
        match details_list with
        | [] => details_list ++ [all_checks_passed]
        | _ => details_list
        end in
      Returned {| name := name;
                  success := success;
                  status_code := Some (resp_status_code response);
                  response_time_ms := Some (elapsed_ms_of response);
                  details := PyStr.join " " details_list |}
  end.

Definition status_str (success : bool) : string :=
  if success then "PASS" else "FAIL".

(** [str(x)] for an [Optional[int]]. *)
Definition str_optional_int (x : option Z) : string :=
  match x with
  | Some z => PyStr.of_int z
  | None => "None"
  end.

(** The latency column of the log line: guarded by [is not None]. *)
Definition log_time_str (response_time_ms : option float) : string :=
  match response_time_ms with
  | Some t => PyFloat.format_2f t
  | None => "N/A"
  end.

(** The latency column of the report and of the summary: guarded by the
    truth value of [response_time_ms]. *)
Definition response_time_str (response_time_ms : option float) : string :=
  match response_time_ms with
  | Some t => if PyFloat.truthy t then PyFloat.format_2f t else "N/A"
  | None => "N/A"
  end.

(** [APITestSuite._log_result] *)
Definition _log_result (result : TestResult) : M unit :=
  modify (set_log (fun l => l ++
    ["[" +:+ status_str (success result) +:+ "] " +:+ name result
       +:+ " (status=" +:+ str_optional_int (status_code result)
       +:+ ", time=" +:+ log_time_str (response_time_ms result)
       +:+ " ms) - " +:+ details result])).

(** The [except Exception] clause of the two test methods. *)
Definition exception_result (name : string) (exc : exn) : TestResult :=
  {| name := name; success := false; status_code := None;
     response_time_ms := None; details := exception_message exc |}.

(** [APITestSuite.run_get_test] *)
Definition run_get_test (name path : string) (expected_status : Z)
    (required_json_paths : option (list string)) : M TestResult :=
  result <- try_except
              (response <- HttpClient.get path ;;
               with_self (fun self =>
                 _validate_response self name response expected_status
                   required_json_paths))
              (fun exc => ret (exception_result name exc)) ;;
  modify (set_results (fun l => l ++ [result])) ;;
  _log_result result ;;
  ret result.

(** [APITestSuite.run_post_test] *)
Definition run_post_test (name path : string) (payload : json)
    (expected_status : Z) (required_json_paths : option (list string))
  : M TestResult :=
  result <- try_except
              (response <- HttpClient.post path (Some payload) ;;
               with_self (fun self =>
                 _validate_response self name response expected_status
                   required_json_paths))
              (fun exc => ret (exception_result name exc)) ;;
  modify (set_results (fun l => l ++ [result])) ;;
  _log_result result ;;
  ret result.

Definition newline : string := String "010"%char EmptyString.

(** The body of the loop of [write_report]: one line for one result. *)
Definition report_line (res : TestResult) : string :=
  status_str (success res) +:+ " | " +:+ name res +:+ " | "
    +:+ "status=" +:+ str_optional_int (status_code res) +:+ " | "
    +:+ "time=" +:+ response_time_str (response_time_ms res) +:+ " ms | "
    +:+ details res.

(** The list [lines] when the loop of [write_report] ends. *)
Definition report_lines (results : list TestResult) : list string :=
  fold_left (fun lines res => lines ++ [report_line res]) results [].

(** [APITestSuite.write_report]: the file at [path] is replaced. *)
Definition write_report (path : string) : M unit :=
  fun st =>
    let lines := report_lines (results st) in
    modify (set_files (fun fs => <[path := PyStr.join newline lines]> fs)) st.

(* ===================================================================== *)
(** ** [run_tests.print_summary] and [test_cases.run_all_tests] *)
(* ===================================================================== *)




(** The line printed for one result. *)
Definition summary_line (res : TestResult) : string :=
  PyStr.ljust 5 (status_str (success res)) +:+ " | "
    +:+ PyStr.ljust 40 (name res) +:+ " "
    +:+ "| status=" +:+ str_optional_int (status_code res) +:+ " "
    +:+ "| time=" +:+ response_time_str (response_time_ms res) +:+ " ms".



(** [test_cases.run_all_tests] *)
Definition run_all_tests : M (list TestResult) :=
  let results : list TestResult := [] in
  r <- run_get_test "GET single user (id=2)" "/users/2" 200
         (Some ["data.id"; "data.email"; "data.first_name"; "data.last_name"]) ;;
  let results := results ++ [r] in
  r <- run_get_test "GET users list (page=2)" "/users?page=2" 200
         (Some ["page"; "data"]) ;;
  let results := results ++ [r] in
  r <- run_post_test "POST create user" "/users"
         (JDict (<["name" := JStr "Harsh Bot"]>
                   (<["job" := JStr "automation-tester"]> ∅)))
         201 (Some ["name"; "job"; "id"; "createdAt"]) ;;
  let results := results ++ [r] in
  r <- run_post_test "POST login without password (negative test)" "/login"
         (JDict (<["email" := JStr "peter@klaven"]> ∅))
         400 (Some ["error"]) ;;
  let results := results ++ [r] in
  ret results.

(* ===================================================================== *)
(** ** Vocabulary of the specification *)
(* ===================================================================== *)

Definition first_char (s : string) : option ascii :=
  match s with
  | String c _ => Some c
  | EmptyString => None
  end.

(** The required paths that a document lacks, in the order supplied. *)
Definition missing_paths (payload : json) (paths : list string) : list string :=
  List.filter (fun p => negb (_has_json_path payload p)) paths.

(** The checks a response violates. *)
Definition status_violated (response : Response) (expected_status : Z) : bool :=
  negb (resp_status_code response =? expected_status).

Definition latency_violated (self : State) (response : Response) : bool :=
  PyFloat.gt (elapsed_ms_of response) (max_response_time_ms (config self)).

Definition parse_violated (response : Response)
    (required_json_paths : option (list string)) : bool :=
  paths_truthy required_json_paths &&
  match resp_json response with
  | Raised _ => true
  | Returned _ => false
  end.

Definition missing_required (response : Response)
    (required_json_paths : option (list string)) : list string :=
  if paths_truthy required_json_paths
  then match resp_json response with
       | Returned payload => missing_paths payload (paths_of required_json_paths)
       | Raised _ => []
       end
  else [].

Definition violation_count (self : State) (response : Response)
    (expected_status : Z) (required_json_paths : option (list string)) : nat :=
  (Nat.b2n (status_violated response expected_status)
   + Nat.b2n (latency_violated self response)
   + Nat.b2n (parse_violated response required_json_paths)
   + length (missing_required response required_json_paths))%nat.

(** The failure messages in the order of the specification: status, then
    latency, then the decode failure or the missing paths. *)
Definition expected_messages (self : State) (response : Response)
    (expected_status : Z) (required_json_paths : option (list string))
  : list string :=
  (if status_violated response expected_status
   then [status_message expected_status (resp_status_code response)] else [])
  ++ (if latency_violated self response
      then [latency_message (elapsed_ms_of response)
              (max_response_time_ms (config self))] else [])
  ++ (if parse_violated response required_json_paths
      then [invalid_json_message] else [])
  ++ map missing_path_message (missing_required response required_json_paths).

(** What [json()] promises: it returns a document or raises a decode
    error. *)
Definition json_contract (response : Response) : Prop :=
  match resp_json response with
  | Returned _ => True
  | Raised exc => isinstance_JSONDecodeError exc = true
  end.

Definition is_failure_message (m : string) : Prop :=
  (exists expected actual : Z, m = status_message expected actual)
  \/ (exists elapsed limit : float, m = latency_message elapsed limit)
  \/ m = invalid_json_message
  \/ (exists path : string, m = missing_path_message path)
  \/ (exists exc : exn, m = exception_message exc).

(** The invariant of the data model on one Verdict. *)
Definition verdict_invariant (v : TestResult) : Prop :=
  (forall m : string,
      is_failure_message m -> PyStr.occurs_in m (details v) -> success v = false)
  /\ (success v = true <-> details v = all_checks_passed)
  /\ (is_Some (status_code v) <-> is_Some (response_time_ms v)).

(** One test invocation, and a run of several in order. *)
Inductive Invocation : Type :=
  | GetTest (name path : string) (expected_status : Z)
      (required_json_paths : option (list string))
  | PostTest (name path : string) (payload : json) (expected_status : Z)
      (required_json_paths : option (list string)).

Definition run_invocation (i : Invocation) : M TestResult :=
  match i with
  | GetTest name path expected_status required_json_paths =>
      run_get_test name path expected_status required_json_paths
  | PostTest name path payload expected_status required_json_paths =>
      run_post_test name path payload expected_status required_json_paths
  end.

Fixpoint run_invocations (invs : list Invocation) : M (list TestResult) :=
  match invs with
  | [] => ret []
  | i :: rest =>
      r <- run_invocation i ;;
      rs <- run_invocations rest ;;
      ret (r :: rs)
  end.

(** The records of a persisted report: the text cut at every newline. *)
Definition report_records (text : string) : list string :=
  PyStr.split "010" text.

Definition newline_free (s : string) : Prop := PyStr.has_char "010" s = false.

(** The Verdict a test method settles on, given what the client call gave
    and the suite as it was after that call. *)
Definition verdict_for (self : State) (name : string) (o : outcome Response)
    (expected_status : Z) (required_json_paths : option (list string))
  : TestResult :=
  match o with
  | Returned response =>
      match _validate_response self name response expected_status
              required_json_paths with
      | Returned v => v
      | Raised exc => exception_result name exc
      end
  | Raised exc => exception_result name exc
  end.

(** The suite after a Verdict was appended and logged. *)
Definition recorded (result : TestResult) (st : State) : State :=
  snd (_log_result result (set_results (fun l => l ++ [result]) st)).

(* ===================================================================== *)
(** ** Sample data *)
(* ===================================================================== *)

Module Sample.

Definition cfg : Config :=
  {| base_url := "https://reqres.in/api";
     timeout := PyFloat.of_Z 10;
     max_response_time_ms := PyFloat.of_Z 800;
     logs_dir := "logs";
     reports_dir := "reports" |}.

(** [{"data": {"id": 7}}] *)
Definition user_doc : json :=
  JDict (<["data" := JDict (<["id" := JInt 7]> ∅)]> ∅).

(** 0.1 s and 0.8 s as binary64 numbers. *)
Definition tenth : float := S754_finite false 7205759403792794 (-56).
Definition eight_tenths : float := S754_finite false 7205759403792794 (-53).

Definition fast_ok : Response :=
  {| resp_status_code := 200; resp_elapsed_total_seconds := tenth;
     resp_json := Returned user_doc |}.

Definition at_limit : Response :=
  {| resp_status_code := 200; resp_elapsed_total_seconds := eight_tenths;
     resp_json := Returned user_doc |}.

Definition instant_ok : Response :=
  {| resp_status_code := 200;
     resp_elapsed_total_seconds := S754_zero false;
     resp_json := Returned user_doc |}.

(** Wrong status, one second, and a body that is no JSON. *)
Definition slow_broken : Response :=
  {| resp_status_code := 404; resp_elapsed_total_seconds := PyFloat.of_Z 1;
     resp_json := Raised (Exn RequestsJSONDecodeError
                            "Expecting value: line 1 column 1 (char 0)") |}.

Definition refused : exn :=
  Exn RequestException "Connection refused".

Definition two_line_failure : exn :=
  Exn RequestException ("Connection aborted." +:+ newline +:+ "Remote end closed").

(** A remote side that answers every request with the same outcome. *)
Definition always (o : outcome Response) : nat -> Request -> outcome Response :=
  fun _ _ => o.

(** A remote side that answers the requests in turn. *)
Definition in_turn (n : nat) (rq : Request) : outcome Response :=
  match n with
  | O => Returned fast_ok
  | 1%nat => Raised refused
  | 2%nat => Returned slow_broken
  | _ => Returned instant_ok
  end.

Definition fresh (net : nat -> Request -> outcome Response) : State :=
  {| config := cfg; results := []; network := net; requests_made := 0;
     log := []; files := ∅; stdout := [] |}.

Definition four_tests : list Invocation :=
  [ GetTest "GET single user (id=2)" "/users/2" 200 (Some ["data.id"]);
    GetTest "GET users list (page=2)" "/users?page=2" 200 (Some ["page"; "data"]);
    PostTest "POST create user" "/users"
      (JDict (<["name" := JStr "Harsh Bot"]> ∅)) 201 (Some ["name"; "id"]);
    PostTest "POST login" "/login"
      (JDict (<["email" := JStr "peter@klaven"]> ∅)) 200 None ].

End Sample.

(* ===================================================================== *)
(** ** Further vocabulary *)
(* ===================================================================== *)

Definition last_char (s : string) : option ascii :=
  first_char (String.rev s).

(** [n] copies of one character. *)
Fixpoint copies (c : ascii) (n : nat) : string :=
  match n with
  | O => EmptyString
  | S k => String c (copies c k)
  end.

(** The value a list of keys leads to, through mappings only. *)
Fixpoint descend (keys : list string) (current : json) : option json :=
  match keys with
  | [] => Some current
  | key :: keys' =>
      match dict_getitem current key with
      | Some next => descend keys' next
      | None => None
      end
  end.

(** The line [_log_result] hands to the logger. *)
Definition log_line (result : TestResult) : string :=
  "[" +:+ status_str (success result) +:+ "] " +:+ name result
    +:+ " (status=" +:+ str_optional_int (status_code result)
    +:+ ", time=" +:+ log_time_str (response_time_ms result)
    +:+ " ms) - " +:+ details result.

(** [path] is taken as a full URL by [_build_url]. *)
Definition is_absolute (path : string) : bool :=
  PyStr.startswith path "http://" || PyStr.startswith path "https://".

Definition with_base_url (cfg : Config) (base : string) : Config :=
  {| base_url := base; timeout := timeout cfg;
     max_response_time_ms := max_response_time_ms cfg;
     logs_dir := logs_dir cfg; reports_dir := reports_dir cfg |}.

(** The request a [get] or a [post] of the client issues. *)
Definition get_request (cfg : Config) (path : string) : Request :=
  {| req_method := "GET"; req_url := HttpClient._build_url cfg path;
     req_json := None; req_timeout := timeout cfg;
     req_headers := HttpClient.headers |}.

Definition post_request (cfg : Config) (path : string) (body : option json)
  : Request :=
  {| req_method := "POST"; req_url := HttpClient._build_url cfg path;
     req_json := body; req_timeout := timeout cfg;
     req_headers := HttpClient.headers |}.

Definition request_of (cfg : Config) (i : Invocation) : Request :=
  match i with
  | GetTest _ path _ _ => get_request cfg path
  | PostTest _ path payload _ _ => post_request cfg path (Some payload)
  end.

Definition name_of (i : Invocation) : string :=
  match i with
  | GetTest name _ _ _ => name
  | PostTest name _ _ _ _ => name
  end.

Definition with_json (response : Response) (j : outcome json) : Response :=
  {| resp_status_code := resp_status_code response;
     resp_elapsed_total_seconds := resp_elapsed_total_seconds response;
     resp_json := j |}.




(** The four tests of [run_all_tests], as invocations. *)
Definition all_tests : list Invocation :=
  [ GetTest "GET single user (id=2)" "/users/2" 200
      (Some ["data.id"; "data.email"; "data.first_name"; "data.last_name"]);
    GetTest "GET users list (page=2)" "/users?page=2" 200
      (Some ["page"; "data"]);
    PostTest "POST create user" "/users"
      (JDict (<["name" := JStr "Harsh Bot"]>
                (<["job" := JStr "automation-tester"]> ∅)))
      201 (Some ["name"; "job"; "id"; "createdAt"]);
    PostTest "POST login without password (negative test)" "/login"
      (JDict (<["email" := JStr "peter@klaven"]> ∅))
      400 (Some ["error"]) ].

(* ===================================================================== *)
(** * Properties *)
(* ===================================================================== *)

(** ** Strings: splitting and joining *)

Lemma append_nil_l (s : string) : "" +:+ s = s.
Proof. reflexivity. Qed.

Lemma append_cons (c : ascii) (s t : string) :
  String c s +:+ t = String c (s +:+ t).
Proof. reflexivity. Qed.

Lemma append_nil_r (s : string) : s +:+ "" = s.
Proof.
  induction s as [|c s IH]; [reflexivity |].
  now rewrite append_cons, IH.
Qed.

Lemma append_assoc (a b c : string) : (a +:+ b) +:+ c = a +:+ (b +:+ c).
Proof.
  induction a as [|x a IH]; [reflexivity |].
  now rewrite !append_cons, IH.
Qed.

Lemma split_not_nil (sep : ascii) (s : string) : PyStr.split sep s <> [].
Proof.
  induction s as [|c s IH]; simpl; [discriminate |].
  destruct (Ascii.eqb c sep); [discriminate |].
  destruct (PyStr.split sep s); discriminate.
Qed.

Lemma has_char_append (c : ascii) (a b : string) :
  PyStr.has_char c (a +:+ b) = PyStr.has_char c a || PyStr.has_char c b.
Proof.
  induction a as [|x a IH]; [reflexivity |].
  rewrite append_cons. simpl. now rewrite IH, orb_assoc.
Qed.

Lemma join_cons2 (sep x y : string) (l : list string) :
  PyStr.join sep (x :: y :: l) = x +:+ sep +:+ PyStr.join sep (y :: l).
Proof. reflexivity. Qed.

(** Splitting undoes joining, and joining undoes splitting: [split] cuts at
    every separator and nowhere else. *)
Lemma join_split (sep : ascii) (s : string) :
  PyStr.join (String sep "") (PyStr.split sep s) = s.
Proof.
  induction s as [|c s IH]; [reflexivity |].
  pose proof (split_not_nil sep s) as Hne.
  cbn [PyStr.split].
  destruct (PyStr.split sep s) as [|seg segs] eqn:Hs; [congruence |].
  destruct (Ascii.eqb c sep) eqn:E.
  - apply Ascii.eqb_eq in E. subst c.
    rewrite join_cons2, IH. reflexivity.
  - destruct segs as [|seg' segs'].
    + simpl in *. now rewrite IH.
    + rewrite join_cons2 in *. rewrite append_cons, IH. reflexivity.
Qed.

Lemma split_segments_free (sep : ascii) (s : string) :
  Forall (fun seg => PyStr.has_char sep seg = false) (PyStr.split sep s).
Proof.
  induction s as [|c s IH]; simpl.
  - constructor; [reflexivity | constructor].
  - destruct (Ascii.eqb c sep) eqn:E.
    + constructor; [reflexivity | exact IH].
    + destruct (PyStr.split sep s) as [|seg segs]; simpl.
      * constructor; [simpl; now rewrite E | constructor].
      * inversion IH; subst. constructor; [simpl; now rewrite E | assumption].
Qed.

Lemma split_free (sep : ascii) (s : string) :
  PyStr.has_char sep s = false -> PyStr.split sep s = [s].
Proof.
  induction s as [|c s IH]; simpl; [reflexivity |].
  intros H. apply orb_false_iff in H as [Hc Hs].
  rewrite Hc, (IH Hs). reflexivity.
Qed.

Lemma split_append_sep (sep : ascii) (a b : string) :
  PyStr.has_char sep a = false ->
  PyStr.split sep (a +:+ String sep b) = a :: PyStr.split sep b.
Proof.
  induction a as [|c a IH]; intros H.
  - rewrite append_nil_l. simpl. now rewrite Ascii.eqb_refl.
  - simpl in H. apply orb_false_iff in H as [Hc Ha].
    rewrite append_cons. simpl. rewrite Hc, (IH Ha). reflexivity.
Qed.

Lemma split_join (sep : ascii) (l : list string) :
  l <> [] ->
  Forall (fun seg => PyStr.has_char sep seg = false) l ->
  PyStr.split sep (PyStr.join (String sep "") l) = l.
Proof.
  induction l as [|x l IH]; [congruence |].
  intros _ Hall. inversion Hall as [|? ? Hx Hl]; subst.
  destruct l as [|y l].
  - simpl. now apply split_free.
  - rewrite join_cons2, append_cons, append_nil_l.
    rewrite split_append_sep by assumption.
    f_equal. apply IH; [discriminate | assumption].
Qed.

Lemma occurs_in_join (sep m : string) (l : list string) :
  In m l -> PyStr.occurs_in m (PyStr.join sep l).
Proof.
  induction l as [|x l IH]; [intros [] |].
  intros [-> | Hin].
  - destruct l as [|y l].
    + exists "", "". simpl. now rewrite append_nil_l, append_nil_r.
    + exists "", (sep +:+ PyStr.join sep (y :: l)). reflexivity.
  - destruct l as [|y l]; [destruct Hin |].
    destruct (IH Hin) as (pre & post & Heq).
    exists (x +:+ sep +:+ pre), post.
    rewrite join_cons2, Heq. now rewrite !append_assoc.
Qed.

(** ** The JSON path checker *)

Lemma has_json_path_loop_resolves (parts : list string) (current : json) :
  has_json_path_loop parts current = true <-> resolves current parts.
Proof.
  revert current. induction parts as [|part parts IH]; intros current; simpl.
  - split; [intros _; constructor | reflexivity].
  - destruct current as [| | | | | |d]; simpl;
      try (split; [discriminate | intros H; inversion H]).
    destruct (d !! part) as [next|] eqn:Hl.
    + rewrite bool_decide_eq_true_2 by eauto. simpl. rewrite IH.
      split.
      * intros H. econstructor; eassumption.
      * intros H. inversion H; subst. congruence.
    + rewrite bool_decide_eq_false_2 by (intros [? ?]; congruence). simpl.
      split; [discriminate | intros H; inversion H; congruence].
Qed.

Lemma has_json_path_loop_stuck (parts : list string) (current : json) :
  has_json_path_loop parts current = false <-> stuck current parts.
Proof.
  revert current. induction parts as [|part parts IH]; intros current; simpl.
  - split; [discriminate | intros H; inversion H].
  - destruct current as [| | | | | |d]; simpl;
      try (split; [intros _; now constructor | reflexivity]).
    destruct (d !! part) as [next|] eqn:Hl.
    + rewrite bool_decide_eq_true_2 by eauto. simpl. rewrite IH.
      split.
      * intros H. eapply stuck_later; eassumption.
      * intros H. inversion H; subst; simpl in *; congruence.
    + rewrite bool_decide_eq_false_2 by (intros [? ?]; congruence). simpl.
      split; [intros _; now constructor | reflexivity].
Qed.

(** C2. For every document and every dotted path, [_has_json_path] answers
    true exactly when the segments obtained by splitting the path on dots
    resolve, left to right, each as a key of the mapping reached so far; it
    answers false exactly when the walk gets stuck at a value that is not a
    mapping or at an absent key.  Being a total function into [bool], it
    raises nothing. *)
Theorem has_json_path_walk (d : json) (p : string) :
  (_has_json_path d p = true <-> resolves d (PyStr.split "." p)) /\
  (_has_json_path d p = false <-> stuck d (PyStr.split "." p)).
Proof.
  unfold _has_json_path. split.
  - apply has_json_path_loop_resolves.
  - apply has_json_path_loop_stuck.
Qed.

(** C3, counterexample. A mapping with an empty-string key has the empty
    path. *)
Lemma has_json_path_empty_key :
  _has_json_path (JDict (<["" := JInt 1]> ∅)) "" = true.
Proof. vm_compute. reflexivity. Qed.

(** C3, amended. The empty path splits into the single empty segment, so it
    is found exactly in the mappings that have the empty string as a key; in
    every other document it is not found. *)
Theorem has_json_path_empty (d : json) :
  _has_json_path d "" = true <->
  exists m : gmap string json, d = JDict m /\ is_Some (m !! "").
Proof.
  unfold _has_json_path. simpl.
  destruct d as [| | | | | |m]; simpl;
    try (split; [discriminate | intros (m' & Heq & _); discriminate]).
  destruct (m !! "") as [next|] eqn:Hl.
  - rewrite bool_decide_eq_true_2 by eauto. simpl.
    split; [intros _ | reflexivity].
    exists m. rewrite Hl. eauto.
  - rewrite bool_decide_eq_false_2 by (intros [? ?]; congruence). simpl.
    split; [discriminate |].
    intros (m' & Heq & [x Hx]). injection Heq as <-. congruence.
Qed.

(** ** The response validator *)

Lemma fold_check_path (payload : json) (paths : list string)
    (success : bool) (details_list : list string) :
  fold_left (check_path payload) paths (success, details_list)
  = (success && forallb (_has_json_path payload) paths,
     details_list ++ map missing_path_message (missing_paths payload paths)).
Proof.
  revert success details_list.
  induction paths as [|p paths IH]; intros success details_list; simpl.
  - now rewrite andb_true_r, app_nil_r.
  - unfold missing_paths in *. simpl.
    destruct (_has_json_path payload p); simpl; rewrite IH.
    + reflexivity.
    + now rewrite andb_false_r, <- app_assoc.
Qed.

Lemma forallb_missing_paths (payload : json) (paths : list string) :
  forallb (_has_json_path payload) paths
  = match missing_paths payload paths with [] => true | _ => false end.
Proof.
  unfold missing_paths.
  induction paths as [|p paths IH]; simpl; [reflexivity |].
  destruct (_has_json_path payload p); simpl; [exact IH | reflexivity].
Qed.

Lemma run_checks_eq (self : State) (response : Response)
    (expected_status : Z) (required_json_paths : option (list string)) :
  run_checks self response expected_status required_json_paths
  = let front :=
      (if status_violated response expected_status
       then [status_message expected_status (resp_status_code response)] else [])
      ++ (if latency_violated self response
          then [latency_message (elapsed_ms_of response)
                  (max_response_time_ms (config self))] else []) in
    let ok := negb (status_violated response expected_status)
              && negb (latency_violated self response) in
    if paths_truthy required_json_paths
    then match resp_json response with
         | Raised exc =>
             if isinstance_JSONDecodeError exc
             then Returned (false, front ++ [invalid_json_message])
             else Raised exc
         | Returned payload =>
             Returned
               (ok && forallb (_has_json_path payload) (paths_of required_json_paths),
                front ++ map missing_path_message
                           (missing_paths payload (paths_of required_json_paths)))
         end
    else Returned (ok, front).
Proof.
  unfold run_checks, status_violated, latency_violated.
  destruct (negb (resp_status_code response =? expected_status));
    destruct (PyFloat.gt (elapsed_ms_of response)
                (max_response_time_ms (config self)));
    cbn [negb andb app];
    destruct (paths_truthy required_json_paths); try reflexivity;
    destruct (resp_json response) as [payload|exc]; try reflexivity;
    rewrite fold_check_path; reflexivity.
Qed.

(** The locals of [_validate_response] after the three checks: the messages
    are those of the violated checks in the order of the code, and [success]
    still holds exactly when there is none. *)
Lemma run_checks_returned (self : State) (response : Response)
    (expected_status : Z) (required_json_paths : option (list string))
    (success : bool) (details_list : list string) :
  run_checks self response expected_status required_json_paths
    = Returned (success, details_list) ->
  details_list = expected_messages self response expected_status required_json_paths
  /\ success = match details_list with [] => true | _ => false end.
Proof.
  rewrite run_checks_eq.
  unfold expected_messages, missing_required, parse_violated.
  destruct (status_violated response expected_status);
    destruct (latency_violated self response);
    destruct (paths_truthy required_json_paths);
    cbn [negb andb app map];
    try (intros [= <- <-]; split; reflexivity);
    destruct (resp_json response) as [payload|exc];
    try (destruct (isinstance_JSONDecodeError exc); [| discriminate]);
    intros [= <- <-]; (split; [reflexivity |]);
    try reflexivity;
    rewrite forallb_missing_paths;
    destruct (missing_paths payload (paths_of required_json_paths)); reflexivity.
Qed.

Lemma validate_returned (self : State) (name : string) (response : Response)
    (expected_status : Z) (required_json_paths : option (list string))
    (v : TestResult) :
  _validate_response self name response expected_status required_json_paths
    = Returned v ->
  exists (ok : bool) (msgs : list string),
    run_checks self response expected_status required_json_paths
      = Returned (ok, msgs)
    /\ v = {| name := name; success := ok;
              status_code := Some (resp_status_code response);
              response_time_ms := Some (elapsed_ms_of response);
              details := PyStr.join " "
                           match msgs with
                           | [] => [all_checks_passed]
                           | _ => msgs
                           end |}.
Proof.
  unfold _validate_response.
  destruct (run_checks self response expected_status required_json_paths)
    as [[ok msgs]|exc]; [| discriminate].
  intros [= <-]. exists ok, msgs. split; [reflexivity |].
  destruct msgs; reflexivity.
Qed.

(** Validation returns a Verdict whenever [json()] keeps its promise. *)
Lemma validate_total (self : State) (name : string) (response : Response)
    (expected_status : Z) (required_json_paths : option (list string)) :
  json_contract response ->
  exists v : TestResult,
    _validate_response self name response expected_status required_json_paths
      = Returned v.
Proof.
  unfold json_contract, _validate_response, run_checks. intros Hc.
  destruct (negb (resp_status_code response =? expected_status));
    destruct (PyFloat.gt (elapsed_ms_of response)
                (max_response_time_ms (config self)));
    destruct (paths_truthy required_json_paths); simpl;
    try (eexists; reflexivity);
    destruct (resp_json response) as [payload|exc];
    try rewrite Hc; try rewrite fold_check_path; eexists; reflexivity.
Qed.

(** ** Telling the messages apart *)

Lemma first_char_status (expected actual : Z) :
  first_char (status_message expected actual) = Some "E"%char.
Proof. reflexivity. Qed.

Lemma first_char_latency (elapsed limit : float) :
  first_char (latency_message elapsed limit) = Some "R"%char.
Proof. reflexivity. Qed.

Lemma first_char_missing (path : string) :
  first_char (missing_path_message path) = Some "M"%char.
Proof. reflexivity. Qed.

Lemma first_char_exception (exc : exn) :
  first_char (exception_message exc) = Some "E"%char.
Proof. reflexivity. Qed.

Lemma latency_not_invalid (elapsed limit : float) :
  latency_message elapsed limit <> invalid_json_message.
Proof.
  intros H. apply (f_equal (String.get 9)) in H.
  vm_compute in H. discriminate H.
Qed.

Lemma in_expected_latency (self : State) (response : Response)
    (expected_status : Z) (required_json_paths : option (list string))
    (x y : float) :
  In (latency_message x y)
     (expected_messages self response expected_status required_json_paths) ->
  latency_violated self response = true.
Proof.
  unfold expected_messages. rewrite !in_app_iff.
  intros [H | [H | [H | H]]].
  - destruct (status_violated response expected_status); [| destruct H].
    destruct H as [H | []].
    apply (f_equal first_char) in H.
    rewrite first_char_status, first_char_latency in H. discriminate H.
  - destruct (latency_violated self response); [reflexivity | destruct H].
  - destruct (parse_violated response required_json_paths); [| destruct H].
    destruct H as [H | []]. symmetry in H. now apply latency_not_invalid in H.
  - apply in_map_iff in H as (p & H & _).
    apply (f_equal first_char) in H.
    rewrite first_char_missing, first_char_latency in H. discriminate H.
Qed.

(** ** Comparison of floats *)

Lemma SFcompare_antisym (x y : spec_float) :
  SFcompare y x = option_map CompOpp (SFcompare x y).
Proof.
  destruct x as [sx|sx| |sx mx ex], y as [sy|sy| |sy my ey]; simpl;
    try reflexivity;
    try (destruct sx; reflexivity); try (destruct sy; reflexivity);
    try (destruct sx, sy; reflexivity).
  pose proof (Pos.compare_cont_antisym mx my Eq) as Hm. simpl in Hm.
  destruct sx, sy; try reflexivity;
    rewrite (Z.compare_antisym ex ey);
    destruct (ex ?= ey) eqn:E; simpl; try reflexivity;
    rewrite <- Hm;
    destruct (Pos.compare_cont Eq mx my); reflexivity.
Qed.

(** [x == y] excludes [x > y]: the comparison of the latency check is
    strict. *)
Lemma float_eq_not_gt (x y : float) :
  PyFloat.eq x y = true -> PyFloat.gt x y = false.
Proof.
  unfold PyFloat.eq, PyFloat.gt, SFeqb, SFltb.
  rewrite (SFcompare_antisym x y).
  destruct (SFcompare x y) as [[| |]|]; simpl; congruence.
Qed.

(** C6. The latency message is appended exactly when [elapsed_ms] is
    strictly greater than the configured limit, and then the test fails;
    when the elapsed time equals the limit the comparison is false and the
    messages hold no latency message at all. *)
Theorem latency_check_is_strict (self : State) (response : Response)
    (expected_status : Z) (required_json_paths : option (list string))
    (success : bool) (details_list : list string) :
  run_checks self response expected_status required_json_paths
    = Returned (success, details_list) ->
  let elapsed_ms := elapsed_ms_of response in
  let limit := max_response_time_ms (config self) in
  (In (latency_message elapsed_ms limit) details_list
     <-> PyFloat.gt elapsed_ms limit = true)
  /\ (PyFloat.gt elapsed_ms limit = true -> success = false)
  /\ (PyFloat.eq elapsed_ms limit = true ->
        PyFloat.gt elapsed_ms limit = false
        /\ forall x y : float, ~ In (latency_message x y) details_list).
Proof.
  intros Hrun elapsed_ms limit.
  apply run_checks_returned in Hrun as [Hmsgs Hok].
  assert (Hin : PyFloat.gt elapsed_ms limit = true ->
                In (latency_message elapsed_ms limit) details_list).
  { intros Hgt. subst details_list. unfold expected_messages.
    apply in_or_app. right. apply in_or_app. left.
    unfold latency_violated. fold elapsed_ms limit. rewrite Hgt. now left. }
  split; [split |]; [| exact Hin | split].
  - intros H. subst details_list. now apply in_expected_latency in H.
  - intros Hgt. specialize (Hin Hgt). subst success.
    destruct details_list; [destruct Hin | reflexivity].
  - intros Heq. pose proof (float_eq_not_gt _ _ Heq) as Hgt.
    split; [exact Hgt |].
    intros x y H. subst details_list. apply in_expected_latency in H.
    unfold latency_violated in H. fold elapsed_ms limit in H. congruence.
Qed.

(** ** Verdicts of the validator *)

(** C10. In a failing Verdict of the validator, [details] is the failure
    messages joined by one space, in this order: the status message if the
    status differs, the latency message if the limit is exceeded, then the
    decode-failure message or else one message for each missing path in the
    order the paths were supplied. *)
Theorem failing_details_in_order (self : State) (name : string)
    (response : Response) (expected_status : Z)
    (required_json_paths : option (list string)) (v : TestResult) :
  _validate_response self name response expected_status required_json_paths
    = Returned v ->
  success v = false ->
  details v
  = PyStr.join " "
      (expected_messages self response expected_status required_json_paths).
Proof.
  intros Hv Hfail.
  apply validate_returned in Hv as (ok & msgs & Hrun & ->).
  apply run_checks_returned in Hrun as [<- Hok].
  simpl in *. subst ok.
  destruct msgs; [discriminate | reflexivity].
Qed.

Lemma expected_messages_length (self : State) (response : Response)
    (expected_status : Z) (required_json_paths : option (list string)) :
  length (expected_messages self response expected_status required_json_paths)
  = violation_count self response expected_status required_json_paths.
Proof.
  unfold expected_messages, violation_count.
  rewrite !length_app, length_map.
  destruct (status_violated response expected_status);
    destruct (latency_violated self response);
    destruct (parse_violated response required_json_paths); simpl; lia.
Qed.

(** C4. When a response violates two or more checks at once, the Verdict of
    the validator fails and its [details] is the join of exactly one message
    for each violated check: the status message, the latency message, the
    decode-failure message, and one entry for each missing required path;
    every one of them can be read in [details].  The decode failure and the
    missing paths count as violated checks when required paths are supplied,
    which is when the code runs the JSON check. *)
Theorem every_violation_is_reported (self : State) (name : string)
    (response : Response) (expected_status : Z)
    (required_json_paths : option (list string)) (v : TestResult) :
  _validate_response self name response expected_status required_json_paths
    = Returned v ->
  (2 <= violation_count self response expected_status required_json_paths)%nat ->
  success v = false
  /\ exists msgs : list string,
       details v = PyStr.join " " msgs
       /\ length msgs
          = violation_count self response expected_status required_json_paths
       /\ (status_violated response expected_status = true ->
             In (status_message expected_status (resp_status_code response)) msgs)
       /\ (latency_violated self response = true ->
             In (latency_message (elapsed_ms_of response)
                   (max_response_time_ms (config self))) msgs)
       /\ (parse_violated response required_json_paths = true ->
             In invalid_json_message msgs)
       /\ (exists front : list string,
             msgs = front ++ map missing_path_message
                               (missing_required response required_json_paths))
       /\ (forall m : string, In m msgs -> PyStr.occurs_in m (details v)).
Proof.
  intros Hv Hcount.
  apply validate_returned in Hv as (ok & msgs & Hrun & ->).
  apply run_checks_returned in Hrun as [Hmsgs Hok].
  pose proof (expected_messages_length self response expected_status
                required_json_paths) as Hlen.
  rewrite <- Hmsgs in Hlen.
  assert (Hd : PyStr.join " " match msgs with
                              | [] => [all_checks_passed]
                              | _ => msgs
                              end = PyStr.join " " msgs).
  { destruct msgs; [simpl in Hlen; lia | reflexivity]. }
  cbn [success details]. rewrite Hd.
  split; [destruct msgs; [simpl in Hlen; lia | exact Hok] |].
  exists msgs.
  split; [reflexivity |]. split; [exact Hlen |].
  split; [| split; [| split; [| split]]].
  - intros H. rewrite Hmsgs. unfold expected_messages. rewrite H.
    apply in_or_app. left. now left.
  - intros H. rewrite Hmsgs. unfold expected_messages. rewrite H.
    apply in_or_app. right. apply in_or_app. left. now left.
  - intros H. rewrite Hmsgs. unfold expected_messages. rewrite H.
    apply in_or_app. right. apply in_or_app. right.
    apply in_or_app. left. now left.
  - rewrite Hmsgs. unfold expected_messages. rewrite !app_assoc.
    eexists. reflexivity.
  - intros m Hin. now apply occurs_in_join.
Qed.

(** C9. Validation reads of the suite only the latency limit and of the
    response only its status code, elapsed time and decoded body: two calls
    that agree on these, on the name and on the expectations give the same
    outcome, field for field, whatever else the suite holds; and two calls
    in a row leave the suite as it was. *)
Theorem validate_is_deterministic (self1 self2 : State) (name : string)
    (response1 response2 : Response) (expected_status : Z)
    (required_json_paths : option (list string)) :
  max_response_time_ms (config self1) = max_response_time_ms (config self2) ->
  resp_status_code response1 = resp_status_code response2 ->
  resp_elapsed_total_seconds response1 = resp_elapsed_total_seconds response2 ->
  resp_json response1 = resp_json response2 ->
  _validate_response self1 name response1 expected_status required_json_paths
  = _validate_response self2 name response2 expected_status required_json_paths
  /\ (first <- with_self (fun self =>
                 _validate_response self name response1 expected_status
                   required_json_paths) ;;
      second <- with_self (fun self =>
                  _validate_response self name response2 expected_status
                    required_json_paths) ;;
      ret (first, second)) self1
     = (match _validate_response self1 name response1 expected_status
                required_json_paths with
        | Returned v => Returned (v, v)
        | Raised exc => Raised exc
        end, self1).
Proof.
  intros Hlimit Hstatus Helapsed Hjson.
  assert (Hsame : forall self,
    _validate_response self name response2 expected_status required_json_paths
    = _validate_response self name response1 expected_status required_json_paths).
  { intros self. unfold _validate_response, run_checks, elapsed_ms_of.
    now rewrite Hstatus, Helapsed, Hjson. }
  split.
  - rewrite Hsame. unfold _validate_response, run_checks.
    now rewrite Hlimit.
  - unfold bind, with_self, ret. rewrite Hsame.
    destruct (_validate_response self1 name response1 expected_status
                required_json_paths); reflexivity.
Qed.

(** ** The orchestrator *)

(** Each test method returns: it settles on a Verdict, appends it and logs
    it, whatever the client call and the validation did. *)
Lemma run_get_test_unfold (name path : string) (expected_status : Z)
    (required_json_paths : option (list string)) (st : State) :
  run_get_test name path expected_status required_json_paths st
  = let v := verdict_for (snd (HttpClient.get path st)) name
               (fst (HttpClient.get path st)) expected_status
               required_json_paths in
    (Returned v, recorded v (snd (HttpClient.get path st))).
Proof.
  unfold run_get_test, bind, try_except, with_self, ret, recorded, verdict_for.
  destruct (HttpClient.get path st) as [[response|exc] st1]; simpl;
    [destruct (_validate_response st1 name response expected_status
                 required_json_paths) |]; reflexivity.
Qed.

Lemma run_post_test_unfold (name path : string) (payload : json)
    (expected_status : Z) (required_json_paths : option (list string))
    (st : State) :
  run_post_test name path payload expected_status required_json_paths st
  = let v := verdict_for (snd (HttpClient.post path (Some payload) st)) name
               (fst (HttpClient.post path (Some payload) st)) expected_status
               required_json_paths in
    (Returned v, recorded v (snd (HttpClient.post path (Some payload) st))).
Proof.
  unfold run_post_test, bind, try_except, with_self, ret, recorded, verdict_for.
  destruct (HttpClient.post path (Some payload) st) as [[response|exc] st1];
    simpl;
    [destruct (_validate_response st1 name response expected_status
                 required_json_paths) |]; reflexivity.
Qed.

Lemma results_recorded (v : TestResult) (st : State) :
  results (recorded v st) = results st ++ [v].
Proof. reflexivity. Qed.

(** The client changes nothing of the suite but the count of requests. *)
Lemma results_after_request (rq : Request) (st : State) :
  results (snd (try_except (requests_request rq) HttpClient.rewrap st))
  = results st.
Proof.
  unfold try_except, requests_request, HttpClient.rewrap, raise.
  destruct (network st (requests_made st) rq) as [response|exc]; simpl;
    [| destruct (isinstance_RequestException exc)]; reflexivity.
Qed.

Lemma results_after_get (path : string) (st : State) :
  results (snd (HttpClient.get path st)) = results st.
Proof. unfold HttpClient.get. apply results_after_request. Qed.

Lemma results_after_post (path : string) (payload : option json) (st : State) :
  results (snd (HttpClient.post path payload st)) = results st.
Proof. unfold HttpClient.post. apply results_after_request. Qed.

(** What the client raises carries the description of what [requests]
    raised. *)
Lemma rewrap_keeps_description (exc : exn) (st : State) :
  exists exc' : exn,
    HttpClient.rewrap exc st = (Raised exc', st) /\ exn_str exc' = exn_str exc.
Proof.
  unfold HttpClient.rewrap, raise.
  destruct (isinstance_RequestException exc); eexists; split; reflexivity.
Qed.

(** C1. When the client raises a failure during [run_get_test] or
    [run_post_test], the method raises nothing: it returns a Verdict with
    [success = false], no status code, no response time and the description
    of the failure in [details], and that Verdict is the one appended to the
    results. *)
Theorem transport_failure_becomes_verdict (st : State) (test_name path : string)
    (payload : json) (expected_status : Z)
    (required_json_paths : option (list string)) :
  (forall exc : exn,
      fst (HttpClient.get path st) = Raised exc ->
      exists (v : TestResult) (st' : State),
        run_get_test test_name path expected_status required_json_paths st
          = (Returned v, st')
        /\ results st' = results st ++ [v]
        /\ name v = test_name
        /\ success v = false
        /\ status_code v = None
        /\ response_time_ms v = None
        /\ details v = "Exception while executing test: " +:+ exn_str exc
        /\ PyStr.occurs_in (exn_str exc) (details v))
  /\ (forall exc : exn,
      fst (HttpClient.post path (Some payload) st) = Raised exc ->
      exists (v : TestResult) (st' : State),
        run_post_test test_name path payload expected_status required_json_paths st
          = (Returned v, st')
        /\ results st' = results st ++ [v]
        /\ name v = test_name
        /\ success v = false
        /\ status_code v = None
        /\ response_time_ms v = None
        /\ details v = "Exception while executing test: " +:+ exn_str exc
        /\ PyStr.occurs_in (exn_str exc) (details v)).
Proof.
  split; intros exc Hraise.
  - rewrite run_get_test_unfold. rewrite Hraise. cbn [verdict_for].
    eexists. eexists. split; [reflexivity |].
    rewrite results_recorded, results_after_get.
    repeat (split; [reflexivity |]).
    exists "Exception while executing test: ", "".
    cbn [details exception_result]. unfold exception_message.
    now rewrite append_nil_r.
  - rewrite run_post_test_unfold. rewrite Hraise. cbn [verdict_for].
    eexists. eexists. split; [reflexivity |].
    rewrite results_recorded, results_after_post.
    repeat (split; [reflexivity |]).
    exists "Exception while executing test: ", "".
    cbn [details exception_result]. unfold exception_message.
    now rewrite append_nil_r.
Qed.

(** ** The invariant of Verdicts *)

Lemma occurs_in_has_char (c : ascii) (m s : string) :
  first_char m = Some c -> PyStr.occurs_in m s -> PyStr.has_char c s = true.
Proof.
  destruct m as [|c' m']; [discriminate |]. intros [= ->].
  intros (pre & post & ->).
  rewrite has_char_append, append_cons. simpl.
  rewrite Ascii.eqb_refl. simpl. apply orb_true_r.
Qed.

Lemma failure_message_first_char (m : string) :
  is_failure_message m ->
  first_char m = Some "E"%char \/ first_char m = Some "R"%char
  \/ first_char m = Some "M"%char.
Proof.
  intros [(e & a & ->) | [(x & y & ->) | [-> | [(p & ->) | (exc & ->)]]]]; auto.
Qed.

Lemma sentinel_holds_no_failure (m : string) :
  is_failure_message m -> ~ PyStr.occurs_in m all_checks_passed.
Proof.
  intros Hm Hocc.
  destruct (failure_message_first_char m Hm) as [H | [H | H]];
    pose proof (occurs_in_has_char _ _ _ H Hocc) as Hc;
    vm_compute in Hc; discriminate Hc.
Qed.

Lemma first_char_join (sep x : string) (l : list string) (c : ascii) :
  first_char x = Some c -> first_char (PyStr.join sep (x :: l)) = Some c.
Proof.
  destruct x as [|c' x']; [discriminate |]. intros [= ->].
  destruct l; reflexivity.
Qed.

Lemma expected_messages_are_failures (self : State) (response : Response)
    (expected_status : Z) (required_json_paths : option (list string)) :
  Forall is_failure_message
    (expected_messages self response expected_status required_json_paths).
Proof.
  unfold expected_messages. repeat apply Forall_app_2.
  - destruct (status_violated response expected_status); constructor;
      [left; eauto | constructor].
  - destruct (latency_violated self response); constructor;
      [right; left; eauto | constructor].
  - destruct (parse_violated response required_json_paths); constructor;
      [right; right; left; reflexivity | constructor].
  - apply Forall_forall. intros m Hin.
    apply list_elem_of_In, in_map_iff in Hin as (p & <- & _).
    right; right; right; left. eauto.
Qed.

Lemma validate_invariant (self : State) (name : string) (response : Response)
    (expected_status : Z) (required_json_paths : option (list string))
    (v : TestResult) :
  _validate_response self name response expected_status required_json_paths
    = Returned v ->
  verdict_invariant v.
Proof.
  intros Hv.
  apply validate_returned in Hv as (ok & msgs & Hrun & ->).
  apply run_checks_returned in Hrun as [Hmsgs Hok].
  assert (Hiff : ok = true <->
                 PyStr.join " " match msgs with
                                | [] => [all_checks_passed]
                                | _ => msgs
                                end = all_checks_passed).
  { subst ok. destruct msgs as [|m0 msgs]; [split; reflexivity |].
    split; [discriminate |]. intros Heq. exfalso.
    pose proof (expected_messages_are_failures self response expected_status
                  required_json_paths) as Hall.
    rewrite <- Hmsgs in Hall. apply Forall_cons_1 in Hall as [Hm0 _].
    apply (f_equal first_char) in Heq.
    destruct (failure_message_first_char m0 Hm0) as [H | [H | H]];
      rewrite (first_char_join _ _ _ _ H) in Heq; discriminate Heq. }
  unfold verdict_invariant. cbn [success details status_code response_time_ms].
  split; [| split; [exact Hiff | split; eauto]].
  intros m Hm Hocc. destruct ok; [| reflexivity].
  exfalso. apply (sentinel_holds_no_failure m Hm).
  destruct Hiff as [Hiff _]. now rewrite <- (Hiff eq_refl).
Qed.

Lemma exception_result_invariant (name : string) (exc : exn) :
  verdict_invariant (exception_result name exc).
Proof.
  unfold verdict_invariant, exception_result.
  cbn [success details status_code response_time_ms].
  split; [reflexivity |]. split; [split; [discriminate |] |].
  - intros Heq. apply (f_equal first_char) in Heq. discriminate Heq.
  - split; intros [? ?]; discriminate.
Qed.

Lemma verdict_for_invariant (self : State) (name : string)
    (o : outcome Response) (expected_status : Z)
    (required_json_paths : option (list string)) :
  verdict_invariant (verdict_for self name o expected_status required_json_paths).
Proof.
  unfold verdict_for. destruct o as [response|exc].
  - destruct (_validate_response self name response expected_status
                required_json_paths) as [v|exc] eqn:Hv.
    + eapply validate_invariant; eassumption.
    + apply exception_result_invariant.
  - apply exception_result_invariant.
Qed.

(** C5. Every Verdict the validator returns and every Verdict built for a
    caught exception satisfies the invariant: it fails whenever a failure
    message can be read in [details]; it passes exactly when [details] is
    the sentinel "All checks passed."; and status code and response time are
    both present or both absent.  Each test method returns such a Verdict
    and keeps the invariant on the accumulated results. *)
Theorem verdicts_keep_invariant :
  (forall (self : State) (name : string) (response : Response)
          (expected_status : Z) (required_json_paths : option (list string))
          (v : TestResult),
      _validate_response self name response expected_status required_json_paths
        = Returned v ->
      verdict_invariant v)
  /\ (forall (name : string) (exc : exn),
        verdict_invariant (exception_result name exc))
  /\ (forall (i : Invocation) (st : State),
        exists (v : TestResult) (st' : State),
          run_invocation i st = (Returned v, st')
          /\ verdict_invariant v
          /\ (Forall verdict_invariant (results st) ->
              Forall verdict_invariant (results st'))).
Proof.
  split; [exact validate_invariant |].
  split; [exact exception_result_invariant |].
  intros [name path expected_status paths
         | name path payload expected_status paths] st; simpl.
  - rewrite run_get_test_unfold. cbv zeta.
    eexists. eexists. split; [reflexivity |].
    split; [apply verdict_for_invariant |].
    intros Hall. rewrite results_recorded, results_after_get.
    apply Forall_app_2; [exact Hall |].
    constructor; [apply verdict_for_invariant | constructor].
  - rewrite run_post_test_unfold. cbv zeta.
    eexists. eexists. split; [reflexivity |].
    split; [apply verdict_for_invariant |].
    intros Hall. rewrite results_recorded, results_after_post.
    apply Forall_app_2; [exact Hall |].
    constructor; [apply verdict_for_invariant | constructor].
Qed.

(** ** Rendering the latency *)

(** A response time that is there and not zero is rendered with two
    decimals in the report, in the summary and in the log. *)
Lemma nonzero_latency_is_rendered (t : float) :
  PyFloat.truthy t = true ->
  response_time_str (Some t) = PyFloat.format_2f t
  /\ log_time_str (Some t) = PyFloat.format_2f t.
Proof. intros Ht. unfold response_time_str, log_time_str. now rewrite Ht. Qed.

Lemma of_int_first_char (z : Z) (rest : string) :
  first_char (PyStr.of_int z +:+ rest) <> Some "N"%char.
Proof.
  unfold PyStr.of_int, NilZero.string_of_int, NilZero.string_of_uint.
  destruct (Z.to_int z) as [d|d].
  - destruct d; simpl; discriminate.
  - simpl. discriminate.
Qed.

(** The report and the summary show the placeholder for an absent latency
    and for a zero one alike; the log line does not. *)
Lemma latency_placeholder (o : option float) :
  response_time_str o = "N/A" <->
  o = None \/ exists s : bool, o = Some (S754_zero s).
Proof.
  destruct o as [t|]; [| split; [now left | reflexivity]].
  destruct t as [s|s| |s m e]; simpl.
  - split; [intros _; right; eauto | reflexivity].
  - split; [destruct s; discriminate | intros [H | [s' H]]; discriminate].
  - split; [discriminate | intros [H | [s' H]]; discriminate].
  - split; [| intros [H | [s' H]]; discriminate].
    unfold PyFloat.fixed2. destruct s; [discriminate |].
    rewrite append_nil_l. intros H. exfalso.
    apply (f_equal first_char) in H.
    now apply of_int_first_char in H.
Qed.

(** C7, at the failing input. A request answered in no measurable time
    gives a Verdict whose response time is present and equal to 0.0; the
    report and the summary render it as "N/A", while the log line of the
    same Verdict renders "0.00". *)
Theorem zero_latency_rendered_as_absent :
  let run := run_get_test "GET user" "/users/2" 200 (Some ["data.id"]) ;;
             write_report "report.txt" in
  let st := snd (run (Sample.fresh (Sample.always (Returned Sample.instant_ok)))) in
  map response_time_ms (results st) = [Some (S754_zero false)]
  /\ files st !! "report.txt"
     = Some "PASS | GET user | status=200 | time=N/A ms | All checks passed."
  /\ map summary_line (results st)
     = ["PASS  | " +:+ PyStr.ljust 40 "GET user"
          +:+ " | status=200 | time=N/A ms"]
  /\ log st
     = ["[PASS] GET user (status=200, time=0.00 ms) - All checks passed."].
Proof. vm_compute. repeat split. Qed.

(** ** The persisted report *)

Lemma fold_left_snoc {A B : Type} (f : A -> B) (l : list A) (acc : list B) :
  fold_left (fun lines x => lines ++ [f x]) l acc = acc ++ map f l.
Proof.
  revert acc. induction l as [|x l IH]; intros acc; simpl.
  - now rewrite app_nil_r.
  - now rewrite IH, <- app_assoc.
Qed.

Lemma report_lines_map (rs : list TestResult) :
  report_lines rs = map report_line rs.
Proof. unfold report_lines. now rewrite fold_left_snoc. Qed.

Lemma write_report_file (path : string) (st : State) :
  exists st' : State,
    write_report path st = (Returned tt, st')
    /\ results st' = results st
    /\ files st' !! path
       = Some (PyStr.join newline (map report_line (results st))).
Proof.
  unfold write_report, modify. eexists. split; [reflexivity |].
  split; [reflexivity |]. simpl.
  rewrite lookup_insert_eq, report_lines_map. reflexivity.
Qed.

Lemma run_invocation_returns (i : Invocation) (st : State) :
  exists (v : TestResult) (st' : State),
    run_invocation i st = (Returned v, st')
    /\ results st' = results st ++ [v].
Proof.
  destruct i as [name path expected_status paths
                | name path payload expected_status paths]; simpl.
  - rewrite run_get_test_unfold. cbv zeta. eexists. eexists.
    split; [reflexivity |]. now rewrite results_recorded, results_after_get.
  - rewrite run_post_test_unfold. cbv zeta. eexists. eexists.
    split; [reflexivity |]. now rewrite results_recorded, results_after_post.
Qed.

(** A run returns the Verdicts of its invocations in order and appends
    exactly these, in the same order, to the results. *)
Lemma run_invocations_returns (invs : list Invocation) (st : State) :
  exists (vs : list TestResult) (st' : State),
    run_invocations invs st = (Returned vs, st')
    /\ results st' = results st ++ vs
    /\ length vs = length invs.
Proof.
  revert st. induction invs as [|i invs IH]; intros st.
  - exists [], st. simpl. now rewrite app_nil_r.
  - destruct (run_invocation_returns i st) as (v & st1 & Hv & Hr1).
    destruct (IH st1) as (vs & st2 & Hvs & Hr2 & Hlen).
    exists (v :: vs), st2.
    cbn [run_invocations]. unfold bind at 1. rewrite Hv.
    unfold bind at 1. rewrite Hvs. unfold ret.
    split; [reflexivity |]. split.
    + rewrite Hr2, Hr1, <- app_assoc. reflexivity.
    + simpl. now rewrite Hlen.
Qed.

(** Numbers are rendered without a newline. *)
Lemma uint_newline_free (d : Decimal.uint) :
  newline_free (NilEmpty.string_of_uint d).
Proof. unfold newline_free. induction d; simpl; auto. Qed.

Lemma of_int_newline_free (z : Z) : newline_free (PyStr.of_int z).
Proof.
  unfold newline_free, PyStr.of_int, NilZero.string_of_int, NilZero.string_of_uint.
  destruct (Z.to_int z) as [d|d].
  - destruct d; try reflexivity; apply uint_newline_free.
  - simpl. destruct d; try reflexivity; apply uint_newline_free.
Qed.

Lemma newline_free_append (a b : string) :
  newline_free a -> newline_free b -> newline_free (a +:+ b).
Proof.
  unfold newline_free. intros Ha Hb. now rewrite has_char_append, Ha, Hb.
Qed.

Lemma format_2f_newline_free (x : float) : newline_free (PyFloat.format_2f x).
Proof.
  assert (Hfixed : forall s h, newline_free (PyFloat.fixed2 s h)).
  { intros s h. unfold PyFloat.fixed2, PyFloat.two_digits.
    repeat apply newline_free_append;
      try apply of_int_newline_free; try (now destruct s).
    destruct (h mod 100 <? 10);
      [apply newline_free_append; [reflexivity |] |];
      apply of_int_newline_free. }
  destruct x as [s|s| |s m e]; simpl; try apply Hfixed;
    try reflexivity; now destruct s.
Qed.

Lemma report_line_newline_free (v : TestResult) :
  newline_free (name v) -> newline_free (details v) ->
  newline_free (report_line v).
Proof.
  intros Hn Hd. unfold report_line.
  repeat apply newline_free_append; try assumption; try reflexivity.
  - now destruct (success v).
  - destruct (status_code v); [apply of_int_newline_free | reflexivity].
  - unfold response_time_str. destruct (response_time_ms v) as [t|];
      [destruct (PyFloat.truthy t); [apply format_2f_newline_free |] |];
      reflexivity.
Qed.

(** C8, counterexample. One test whose transport failure has a description
    of two lines: the results hold one Verdict, the persisted report has two
    records. *)
Lemma report_has_more_records_than_verdicts :
  let run := run_get_test "GET users" "/users" 200 None ;;
             write_report "report.txt" in
  let st := snd (run (Sample.fresh
                        (Sample.always (Raised Sample.two_line_failure)))) in
  exists text : string,
    files st !! "report.txt" = Some text
    /\ length (results st) = 1%nat
    /\ length (report_records text) = 2%nat.
Proof. eexists. vm_compute. repeat split. Qed.

(** C8, amended. A run appends the Verdicts of its invocations to the
    results in the order of invocation, and the persisted report is the
    lines rendered from the results, in that order, joined by newlines.
    When there is at least one Verdict and no name and no details holds a
    newline, the records of the persisted text are exactly these lines: one
    for each Verdict, the n-th for the n-th Verdict. *)
Theorem report_follows_results (invs : list Invocation) (path : string)
    (st : State) :
  exists (vs : list TestResult) (st1 st2 : State) (text : string),
    run_invocations invs st = (Returned vs, st1)
    /\ write_report path st1 = (Returned tt, st2)
    /\ results st1 = results st ++ vs
    /\ length vs = length invs
    /\ files st2 !! path = Some text
    /\ text = PyStr.join newline (map report_line (results st1))
    /\ (results st1 <> [] ->
        Forall (fun v => newline_free (name v) /\ newline_free (details v))
          (results st1) ->
        report_records text = map report_line (results st1)
        /\ length (report_records text) = length (results st1)
        /\ forall (n : nat) (v : TestResult),
             results st1 !! n = Some v ->
             report_records text !! n = Some (report_line v)).
Proof.
  destruct (run_invocations_returns invs st) as (vs & st1 & Hrun & Hres & Hlen).
  destruct (write_report_file path st1) as (st2 & Hw & _ & Hfile).
  exists vs, st1, st2, (PyStr.join newline (map report_line (results st1))).
  repeat (split; [assumption || reflexivity |]).
  intros Hne Hall.
  assert (Hrec : report_records
                   (PyStr.join newline (map report_line (results st1)))
                 = map report_line (results st1)).
  { unfold report_records, newline. apply split_join.
    - destruct (results st1); [congruence | discriminate].
    - apply Forall_forall. intros line Hin.
      apply list_elem_of_In, in_map_iff in Hin as (v & <- & Hv).
      rewrite Forall_forall in Hall.
      destruct (Hall v) as [Hn Hd]; [now apply list_elem_of_In |].
      now apply report_line_newline_free. }
  rewrite Hrec. split; [reflexivity |]. split; [apply length_map |].
  intros n v Hn. now rewrite list_lookup_fmap, Hn.
Qed.

(** ** The scenarios of the specification *)

(** Status as expected, 100 ms under a limit of 800 ms, the required path
    present: the Verdict passes with the sentinel. *)
Example scenario_all_pass :
  _validate_response (Sample.fresh Sample.in_turn) "GET single user (id=2)"
    Sample.fast_ok 200 (Some ["data.id"])
  = Returned {| name := "GET single user (id=2)"; success := true;
                status_code := Some 200;
                response_time_ms := Some (PyFloat.of_Z 100);
                details := "All checks passed." |}.
Proof. vm_compute. reflexivity. Qed.

(** 950 ms against a limit of 800 ms. *)
Example scenario_latency :
  run_checks (Sample.fresh Sample.in_turn)
    {| resp_status_code := 200;
       resp_elapsed_total_seconds := S754_finite false 8556839292003942 (-53);
       resp_json := Returned Sample.user_doc |} 200 None
  = Returned (false, ["Response time 950.00 ms exceeded limit 800.00 ms."]).
Proof. vm_compute. reflexivity. Qed.

(** Two required paths, one of them missing: one entry, for the missing
    one. *)
Example scenario_missing_path :
  run_checks (Sample.fresh Sample.in_turn) Sample.fast_ok 200
    (Some ["data.id"; "data.email"])
  = Returned (false, ["Missing JSON path: data.email"]).
Proof. vm_compute. reflexivity. Qed.

(** A decode error of another class than [json.JSONDecodeError] leaves the
    validator as an exception and reaches the caller as an exception
    Verdict. *)
Example scenario_foreign_decode_error :
  let response := {| resp_status_code := 200;
                     resp_elapsed_total_seconds := Sample.tenth;
                     resp_json := Raised (Exn OtherException "Expecting value") |} in
  option_map details
    match fst (run_get_test "GET user" "/users/2" 200 (Some ["data.id"])
                 (Sample.fresh (Sample.always (Returned response)))) with
    | Returned v => Some v
    | Raised _ => None
    end
  = Some "Exception while executing test: Expecting value".
Proof. vm_compute. reflexivity. Qed.

(** Formatting to two decimals rounds the exact binary value, ties to
    even. *)
Example format_2f_samples :
  map PyFloat.format_2f
    [ S754_finite false 1 (-3); S754_finite false 3 (-3);
      S754_finite true 1 (-10); S754_zero true; PyFloat.of_Z 1234;
      S754_infinity false; S754_nan ]
  = ["0.12"; "0.38"; "-0.00"; "-0.00"; "1234.00"; "inf"; "nan"].
Proof. vm_compute. reflexivity. Qed.

(** A failure of [requests] reaches the test method as a failure of the
    client with the same description. *)
Lemma requests_failure_reaches_client (path : string) (st : State) (e0 : exn) :
  network st (requests_made st)
    {| req_method := "GET"; req_url := HttpClient._build_url (config st) path;
       req_json := None; req_timeout := timeout (config st);
       req_headers := HttpClient.headers |} = Raised e0 ->
  exists exc : exn,
    fst (HttpClient.get path st) = Raised exc /\ exn_str exc = exn_str e0.
Proof.
  intros Hnet. unfold HttpClient.get, try_except, requests_request.
  rewrite Hnet. unfold HttpClient.rewrap, raise.
  destruct (isinstance_RequestException e0); eexists; split; reflexivity.
Qed.

(** ** The properties at the sample data *)

(** C1 at a refused connection, for both methods. *)
Lemma transport_failure_becomes_verdict_witness :
  let st := Sample.fresh (Sample.always (Raised Sample.refused)) in
  let exc := Exn APIClientError "Connection refused" in
  fst (HttpClient.get "/users/2" st) = Raised exc
  /\ fst (HttpClient.post "/users/2" (Some Sample.user_doc) st) = Raised exc
  /\ (exists (v : TestResult) (st' : State),
        run_get_test "GET single user (id=2)" "/users/2" 200 (Some ["data.id"]) st
          = (Returned v, st')
        /\ results st' = results st ++ [v]
        /\ name v = "GET single user (id=2)"
        /\ success v = false
        /\ status_code v = None
        /\ response_time_ms v = None
        /\ details v = "Exception while executing test: " +:+ exn_str exc
        /\ PyStr.occurs_in (exn_str exc) (details v))
  /\ (exists (v : TestResult) (st' : State),
        run_post_test "GET single user (id=2)" "/users/2" Sample.user_doc 200
          (Some ["data.id"]) st
          = (Returned v, st')
        /\ results st' = results st ++ [v]
        /\ name v = "GET single user (id=2)"
        /\ success v = false
        /\ status_code v = None
        /\ response_time_ms v = None
        /\ details v = "Exception while executing test: " +:+ exn_str exc
        /\ PyStr.occurs_in (exn_str exc) (details v)).
Proof.
  intros st exc.
  pose proof (transport_failure_becomes_verdict st "GET single user (id=2)"
                "/users/2" Sample.user_doc 200 (Some ["data.id"])) as [Hget Hpost].
  split; [reflexivity |]. split; [reflexivity |].
  split; [apply Hget | apply Hpost]; reflexivity.
Defined.

(** C4 at a response with a wrong status, a latency over the limit and a
    body that is no JSON: three violations, three messages. *)
Lemma every_violation_is_reported_witness :
  let self := Sample.fresh Sample.in_turn in
  exists v : TestResult,
    _validate_response self "POST create user" Sample.slow_broken 201
      (Some ["name"; "id"]) = Returned v
    /\ violation_count self Sample.slow_broken 201 (Some ["name"; "id"]) = 3%nat
    /\ success v = false
    /\ details v
       = "Expected status 201, got 404. Response time 1000.00 ms exceeded limit 800.00 ms. Response is not valid JSON."
    /\ exists msgs : list string,
         details v = PyStr.join " " msgs /\ length msgs = 3%nat.
Proof.
  intros self. eexists.
  split; [vm_compute; reflexivity |].
  split; [vm_compute; reflexivity |].
  edestruct (every_violation_is_reported self "POST create user"
               Sample.slow_broken 201 (Some ["name"; "id"]))
    as (Hfail & msgs & Hd & Hlen & _).
  - vm_compute. reflexivity.
  - vm_compute. lia.
  - split; [exact Hfail |]. split; [vm_compute; reflexivity |].
    exists msgs. split; [exact Hd | exact Hlen].
Defined.

(** C5 on the four sample tests, run one after the other. *)
Lemma verdicts_keep_invariant_witness :
  let st := Sample.fresh Sample.in_turn in
  exists (vs : list TestResult) (st' : State),
    run_invocations Sample.four_tests st = (Returned vs, st')
    /\ Forall verdict_invariant vs.
Proof.
  intros st.
  destruct verdicts_keep_invariant as (_ & _ & Hrun).
  unfold Sample.four_tests. cbn [run_invocations]. unfold bind, ret.
  destruct (Hrun (GetTest "GET single user (id=2)" "/users/2" 200
                    (Some ["data.id"])) st) as (v1 & st1 & -> & H1 & _).
  destruct (Hrun (GetTest "GET users list (page=2)" "/users?page=2" 200
                    (Some ["page"; "data"])) st1) as (v2 & st2 & -> & H2 & _).
  destruct (Hrun (PostTest "POST create user" "/users"
                    (JDict (<["name" := JStr "Harsh Bot"]> ∅)) 201
                    (Some ["name"; "id"])) st2) as (v3 & st3 & -> & H3 & _).
  destruct (Hrun (PostTest "POST login" "/login"
                    (JDict (<["email" := JStr "peter@klaven"]> ∅)) 200 None) st3)
    as (v4 & st4 & -> & H4 & _).
  eexists. eexists. split; [reflexivity |].
  repeat (constructor; [assumption |]). constructor.
Defined.

(** C6 at a response that took 0.8 s under a limit of 800 ms. *)
Lemma latency_check_is_strict_witness :
  let self := Sample.fresh Sample.in_turn in
  run_checks self Sample.at_limit 200 (Some ["data.id"]) = Returned (true, [])
  /\ PyFloat.eq (elapsed_ms_of Sample.at_limit) (max_response_time_ms (config self))
     = true
  /\ PyFloat.gt (elapsed_ms_of Sample.at_limit) (max_response_time_ms (config self))
     = false
  /\ forall x y : float, ~ In (latency_message x y) [].
Proof.
  intros self.
  pose proof (latency_check_is_strict self Sample.at_limit 200
                (Some ["data.id"]) true [] eq_refl) as (_ & _ & Heq).
  split; [reflexivity |]. split; [reflexivity |].
  apply Heq. reflexivity.
Defined.

(** C9 on two suites that differ in their accumulated results. *)
Lemma validate_is_deterministic_witness :
  let self1 := Sample.fresh Sample.in_turn in
  let self2 := snd (run_invocations Sample.four_tests self1) in
  results self1 <> results self2
  /\ _validate_response self1 "GET single user (id=2)" Sample.fast_ok 200
       (Some ["data.id"; "data.email"])
     = _validate_response self2 "GET single user (id=2)" Sample.fast_ok 200
         (Some ["data.id"; "data.email"]).
Proof.
  intros self1 self2. split; [vm_compute; discriminate |].
  apply (validate_is_deterministic self1 self2 "GET single user (id=2)"
           Sample.fast_ok Sample.fast_ok 200 (Some ["data.id"; "data.email"]));
    reflexivity.
Defined.

(** C10 at the same response as C4 and at one that lacks two paths. *)
Lemma failing_details_in_order_witness :
  let self := Sample.fresh Sample.in_turn in
  exists v : TestResult,
    _validate_response self "GET single user (id=2)" Sample.slow_broken 200
      (Some ["data.email"; "data.id"; "data.first_name"]) = Returned v
    /\ success v = false
    /\ details v
       = PyStr.join " "
           (expected_messages self Sample.slow_broken 200
              (Some ["data.email"; "data.id"; "data.first_name"])).
Proof.
  intros self. eexists.
  split; [vm_compute; reflexivity |].
  split; [reflexivity |].
  apply (failing_details_in_order self "GET single user (id=2)"
           Sample.slow_broken 200
           (Some ["data.email"; "data.id"; "data.first_name"]));
    reflexivity.
Defined.

Example missing_paths_in_order :
  option_map details
    match _validate_response (Sample.fresh Sample.in_turn) "GET single user (id=2)"
            Sample.fast_ok 404
            (Some ["data.email"; "data.id"; "data.first_name"]) with
    | Returned v => Some v
    | Raised _ => None
    end
  = Some "Expected status 404, got 200. Missing JSON path: data.email Missing JSON path: data.first_name".
Proof. vm_compute. reflexivity. Qed.

(** C8 (amended) on the four sample tests: four Verdicts, four records. *)
Lemma report_follows_results_witness :
  let st := Sample.fresh Sample.in_turn in
  exists (st1 : State) (text : string),
    snd (run_invocations Sample.four_tests st) = st1
    /\ results st1 <> []
    /\ Forall (fun v => newline_free (name v) /\ newline_free (details v))
         (results st1)
    /\ files (snd (write_report "report.txt" st1)) !! "report.txt" = Some text
    /\ report_records text = map report_line (results st1)
    /\ length (report_records text) = 4%nat.
Proof.
  intros st.
  destruct (report_follows_results Sample.four_tests "report.txt" st)
    as (vs & st1 & st2 & text & Hrun & Hw & Hres & Hlen & Hfile & Htext & Hrec).
  exists st1, text.
  assert (Hst1 : snd (run_invocations Sample.four_tests st) = st1)
    by now rewrite Hrun.
  assert (Hne : results st1 <> []).
  { rewrite <- Hst1. vm_compute. discriminate. }
  assert (Hall : Forall (fun v => newline_free (name v) /\ newline_free (details v))
                   (results st1)).
  { rewrite <- Hst1. vm_compute. repeat constructor. }
  destruct (Hrec Hne Hall) as (Hlines & Hcount & _).
  split; [exact Hst1 |]. split; [exact Hne |]. split; [exact Hall |].
  split; [now rewrite Hw |]. split; [exact Hlines |].
  rewrite Hcount, Hres, length_app, Hlen. reflexivity.
Defined.

(** * Further properties *)

(** ** More on the JSON path checker *)

Lemma split_append_at_sep (sep : ascii) (a b : string) :
  PyStr.split sep (a +:+ String sep b) = PyStr.split sep a ++ PyStr.split sep b.
Proof.
  induction a as [|c a IH].
  - rewrite append_nil_l. simpl. now rewrite Ascii.eqb_refl.
  - rewrite append_cons. simpl. rewrite IH.
    pose proof (split_not_nil sep a) as Hne.
    destruct (Ascii.eqb c sep); [reflexivity |].
    destruct (PyStr.split sep a) as [|seg segs]; [congruence | reflexivity].
Qed.

Lemma loop_descend (keys : list string) (current : json) :
  has_json_path_loop keys current
  = match descend keys current with Some _ => true | None => false end.
Proof.
  revert current. induction keys as [|key keys IH]; intros current; simpl.
  - reflexivity.
  - destruct current as [| | | | | |d]; simpl; try reflexivity.
    destruct (d !! key) as [next|] eqn:Hl.
    + rewrite bool_decide_eq_true_2 by eauto. simpl. apply IH.
    + rewrite bool_decide_eq_false_2 by (intros [? ?]; congruence). reflexivity.
Qed.

Lemma descend_app (keys1 keys2 : list string) (current : json) :
  descend (keys1 ++ keys2) current
  = match descend keys1 current with
    | Some v => descend keys2 v
    | None => None
    end.
Proof.
  revert current. induction keys1 as [|key keys1 IH]; intros current; simpl.
  - reflexivity.
  - destruct (dict_getitem current key); [apply IH | reflexivity].
Qed.

(** X1. A path [p.q] is found exactly when [p] leads, through mappings, to
    a value in which [q] is found; so whenever [p.q] is found, [p] is. *)
Theorem has_json_path_compose (d : json) (p q : string) :
  _has_json_path d (p +:+ "." +:+ q)
  = match descend (PyStr.split "." p) d with
    | Some v => _has_json_path v q
    | None => false
    end
  /\ (_has_json_path d (p +:+ "." +:+ q) = true -> _has_json_path d p = true).
Proof.
  assert (Heq : _has_json_path d (p +:+ "." +:+ q)
                = match descend (PyStr.split "." p) d with
                  | Some v => _has_json_path v q
                  | None => false
                  end).
  { unfold _has_json_path.
    change ("." +:+ q) with (String "."%char q).
    rewrite split_append_at_sep, loop_descend, descend_app.
    destruct (descend (PyStr.split "." p) d) as [v|]; [| reflexivity].
    now rewrite loop_descend. }
  split; [exact Heq |].
  rewrite Heq. unfold _has_json_path at 2. rewrite loop_descend.
  destruct (descend (PyStr.split "." p) d); [reflexivity | discriminate].
Qed.

(** X2. In a document that is not a mapping (a list, a string, a number, a
    boolean, null) no path is found, whatever the path: list elements cannot
    be addressed. *)
Theorem has_json_path_needs_mapping (d : json) (p : string) :
  isinstance_dict d = false -> _has_json_path d p = false.
Proof.
  intros Hd. unfold _has_json_path.
  pose proof (split_not_nil "." p) as Hne.
  destruct (PyStr.split "." p) as [|seg segs]; [congruence |].
  simpl. now rewrite Hd.
Qed.

Lemma has_json_path_needs_mapping_witness :
  isinstance_dict (JList [JDict (<["id" := JInt 7]> ∅)]) = false
  /\ _has_json_path (JList [JDict (<["id" := JInt 7]> ∅)]) "0.id" = false.
Proof.
  split; [reflexivity |].
  apply (has_json_path_needs_mapping (JList [JDict (<["id" := JInt 7]> ∅)]) "0.id").
  reflexivity.
Defined.

(** X3. A path without a dot is found in a mapping exactly when it is one
    of its keys; the value under the key plays no part, so a key bound to
    null counts as present. *)
Theorem has_json_path_single_key (m : gmap string json) (key : string) :
  PyStr.has_char "." key = false ->
  (_has_json_path (JDict m) key = true <-> is_Some (m !! key))
  /\ (forall v : json, _has_json_path (JDict (<[key := v]> m)) key = true).
Proof.
  intros Hfree.
  assert (Hone : forall m' : gmap string json,
             _has_json_path (JDict m') key = true <-> is_Some (m' !! key)).
  { intros m'. unfold _has_json_path. rewrite (split_free _ _ Hfree). simpl.
    destruct (m' !! key) as [next|] eqn:Hl.
    - rewrite bool_decide_eq_true_2 by eauto. simpl. split; eauto.
    - rewrite bool_decide_eq_false_2 by (intros [? ?]; congruence). simpl.
      split; [discriminate | intros [? ?]; discriminate]. }
  split; [apply Hone |].
  intros v. apply Hone. rewrite lookup_insert_eq. eauto.
Qed.

Lemma has_json_path_single_key_witness :
  PyStr.has_char "." "error" = false
  /\ _has_json_path (JDict (<["error" := JNull]> ∅)) "error" = true.
Proof.
  split; [reflexivity |].
  apply (has_json_path_single_key ∅ "error"). reflexivity.
Defined.

Lemma split_head_free (sep : ascii) (s seg : string) (segs : list string) :
  PyStr.split sep s = seg :: segs -> PyStr.has_char sep seg = false.
Proof.
  intros Hs. pose proof (split_segments_free sep s) as Hall.
  rewrite Hs in Hall. now inversion Hall.
Qed.

(** X4. A key of the document that itself holds a dot is out of reach:
    taking it out of the mapping changes the answer for no path. *)
Theorem has_json_path_dotted_key_unreachable (m : gmap string json)
    (key p : string) :
  PyStr.has_char "." key = true ->
  _has_json_path (JDict (delete key m)) p = _has_json_path (JDict m) p.
Proof.
  intros Hdot. unfold _has_json_path.
  pose proof (split_not_nil "." p) as Hne.
  destruct (PyStr.split "." p) as [|seg segs] eqn:Hs; [congruence |].
  assert (Hneq : key <> seg).
  { intros ->. apply split_head_free in Hs. congruence. }
  simpl. now rewrite lookup_delete_ne.
Qed.

Lemma has_json_path_dotted_key_unreachable_witness :
  PyStr.has_char "." "data.id" = true
  /\ _has_json_path (JDict (<["data.id" := JInt 7]> ∅)) "data.id" = false.
Proof.
  split; [reflexivity |].
  rewrite <- (has_json_path_dotted_key_unreachable
                (<["data.id" := JInt 7]> ∅) "data.id" "data.id" eq_refl).
  reflexivity.
Defined.

Lemma has_json_path_compose_witness :
  _has_json_path Sample.user_doc ("data" +:+ "." +:+ "id") = true
  /\ _has_json_path Sample.user_doc "data" = true.
Proof.
  split; [reflexivity |].
  apply (has_json_path_compose Sample.user_doc "data" "id"). reflexivity.
Defined.

(** ** The URL of a request *)

Lemma lstrip_head (c : ascii) (s : string) :
  first_char (PyStr.lstrip c s) <> Some c.
Proof.
  induction s as [|a s IH]; simpl; [discriminate |].
  destruct (Ascii.eqb a c) eqn:E; [exact IH |].
  simpl. intros [= ->]. now rewrite Ascii.eqb_refl in E.
Qed.

Lemma lstrip_copies (c : ascii) (s : string) :
  exists n : nat, s = copies c n +:+ PyStr.lstrip c s.
Proof.
  induction s as [|a s [n IH]]; [exists O; reflexivity |].
  simpl. destruct (Ascii.eqb a c) eqn:E.
  - apply Ascii.eqb_eq in E. subst a. exists (S n).
    simpl. rewrite append_cons. now rewrite <- IH.
  - exists O. reflexivity.
Qed.

Lemma rev_app_append (s t : string) :
  String.rev_app s t = String.rev_app s "" +:+ t.
Proof.
  revert t. induction s as [|a s IH]; intros t; simpl; [reflexivity |].
  rewrite (IH (String a t)), (IH (String a "")).
  now rewrite append_assoc.
Qed.

Lemma rev_cons (a : ascii) (s : string) :
  String.rev (String a s) = String.rev s +:+ String a "".
Proof. unfold String.rev. simpl. apply rev_app_append. Qed.

Lemma first_char_append (s t : string) :
  s <> "" -> first_char (s +:+ t) = first_char s.
Proof. destruct s; [congruence | reflexivity]. Qed.

Lemma rev_not_empty (s : string) : s <> "" -> String.rev s <> "".
Proof.
  destruct s as [|a s]; [congruence |]. intros _.
  rewrite rev_cons. destruct (String.rev s); discriminate.
Qed.

Lemma rstrip_last (c : ascii) (s : string) :
  last_char (PyStr.rstrip c s) <> Some c.
Proof.
  unfold last_char.
  induction s as [|a s IH]; simpl; [discriminate |].
  destruct (PyStr.rstrip c s) as [|b t] eqn:Hr.
  - destruct (Ascii.eqb a c) eqn:E; [discriminate |].
    simpl. intros [= ->]. now rewrite Ascii.eqb_refl in E.
  - rewrite rev_cons, first_char_append; [exact IH |].
    apply rev_not_empty. discriminate.
Qed.

Lemma copies_snoc (c : ascii) (n : nat) :
  copies c (S n) = copies c n +:+ String c "".
Proof. induction n as [|n IH]; [reflexivity |]. simpl in *. now rewrite append_cons, <- IH. Qed.

Lemma rstrip_copies (c : ascii) (s : string) :
  exists n : nat, s = PyStr.rstrip c s +:+ copies c n.
Proof.
  induction s as [|a s [n IH]]; [exists O; reflexivity |].
  simpl. destruct (PyStr.rstrip c s) as [|b t] eqn:Hr.
  - rewrite append_nil_l in IH.
    destruct (Ascii.eqb a c) eqn:E.
    + apply Ascii.eqb_eq in E. subst a. exists (S n).
      rewrite append_nil_l. simpl. now rewrite <- IH.
    + exists n. rewrite append_cons, append_nil_l. now rewrite <- IH.
  - exists n. rewrite append_cons. now rewrite <- IH.
Qed.

Lemma lstrip_cons_same (c : ascii) (s : string) :
  PyStr.lstrip c (String c s) = PyStr.lstrip c s.
Proof. simpl. now rewrite Ascii.eqb_refl. Qed.

Lemma rstrip_snoc_same (c : ascii) (s : string) :
  PyStr.rstrip c (s +:+ String c "") = PyStr.rstrip c s.
Proof.
  induction s as [|a s IH].
  - rewrite append_nil_l. simpl. now rewrite Ascii.eqb_refl.
  - rewrite append_cons. simpl. now rewrite IH.
Qed.

(** X5. A path that starts with "http://" or "https://" is used as the URL
    unchanged, whatever the base URL.  Any other path is joined to the base
    URL with exactly one slash between them: the URL is the base URL without
    its trailing slashes, one slash, and the path without its leading
    slashes. *)
Theorem build_url_one_slash (cfg : Config) (path : string) :
  (is_absolute path = true -> HttpClient._build_url cfg path = path)
  /\ (is_absolute path = false ->
      exists (base rest : string) (i j : nat),
        HttpClient._build_url cfg path = base +:+ "/" +:+ rest
        /\ base_url cfg = base +:+ copies "/" i
        /\ path = copies "/" j +:+ rest
        /\ last_char base <> Some "/"%char
        /\ first_char rest <> Some "/"%char).
Proof.
  unfold HttpClient._build_url, is_absolute. split; intros Habs; rewrite Habs.
  - reflexivity.
  - destruct (rstrip_copies "/" (base_url cfg)) as [i Hi].
    destruct (lstrip_copies "/" path) as [j Hj].
    exists (PyStr.rstrip "/" (base_url cfg)), (PyStr.lstrip "/" path), i, j.
    split; [reflexivity |]. split; [exact Hi |]. split; [exact Hj |].
    split; [apply rstrip_last | apply lstrip_head].
Qed.

Lemma build_url_one_slash_witness :
  is_absolute "https://example.org/ping" = true
  /\ HttpClient._build_url Sample.cfg "https://example.org/ping"
     = "https://example.org/ping"
  /\ is_absolute "//users/2" = false
  /\ HttpClient._build_url (with_base_url Sample.cfg "https://reqres.in/api//")
       "//users/2" = "https://reqres.in/api/users/2".
Proof.
  destruct (build_url_one_slash Sample.cfg "https://example.org/ping") as [Habs _].
  split; [reflexivity |]. split; [apply Habs; reflexivity |].
  split; reflexivity.
Defined.

(** X6. For a path that is not a full URL, slashes at the end of the base
    URL and at the start of the path make no difference to the URL. *)
Theorem build_url_ignores_extra_slashes (cfg : Config) (path : string) :
  is_absolute path = false ->
  HttpClient._build_url (with_base_url cfg (base_url cfg +:+ "/")) path
    = HttpClient._build_url cfg path
  /\ HttpClient._build_url cfg ("/" +:+ path) = HttpClient._build_url cfg path.
Proof.
  unfold is_absolute. intros Habs. unfold HttpClient._build_url.
  rewrite Habs. split.
  - simpl. now rewrite rstrip_snoc_same.
  - change ("/" +:+ path) with (String "/"%char path).
    rewrite lstrip_cons_same. reflexivity.
Qed.

Lemma build_url_ignores_extra_slashes_witness :
  is_absolute "users/2" = false
  /\ HttpClient._build_url (with_base_url Sample.cfg (base_url Sample.cfg +:+ "/"))
       "users/2" = "https://reqres.in/api/users/2"
  /\ HttpClient._build_url Sample.cfg ("/" +:+ "users/2")
     = "https://reqres.in/api/users/2".
Proof.
  destruct (build_url_ignores_extra_slashes Sample.cfg "users/2" eq_refl)
    as [Hbase Hpath].
  split; [reflexivity |]. split; [now rewrite Hbase | now rewrite Hpath].
Defined.

(** ** The client *)

(** X7. The client never lets a [RequestException] out: what [requests]
    raises of that class leaves [get] and [post] as an [APIClientError], any
    other exception leaves them as it is, and in both cases the description
    is the one [requests] gave.  A response is handed on unchanged.  Either
    way exactly one request was issued. *)
Theorem client_wraps_request_exceptions (path : string) (body : option json)
    (st : State) :
  let answer_get := network st (requests_made st) (get_request (config st) path) in
  let answer_post :=
    network st (requests_made st) (post_request (config st) path body) in
  snd (HttpClient.get path st) = set_requests_made S st
  /\ snd (HttpClient.post path body st) = set_requests_made S st
  /\ (forall r : Response,
        answer_get = Returned r -> fst (HttpClient.get path st) = Returned r)
  /\ (forall r : Response,
        answer_post = Returned r -> fst (HttpClient.post path body st) = Returned r)
  /\ (forall exc : exn,
        fst (HttpClient.get path st) = Raised exc ->
        isinstance_RequestException exc = false
        /\ exists e0 : exn,
             answer_get = Raised e0 /\ exn_str exc = exn_str e0
             /\ (isinstance_RequestException e0 = true ->
                 exn_class exc = APIClientError)
             /\ (isinstance_RequestException e0 = false -> exc = e0))
  /\ (forall exc : exn,
        fst (HttpClient.post path body st) = Raised exc ->
        isinstance_RequestException exc = false
        /\ exists e0 : exn,
             answer_post = Raised e0 /\ exn_str exc = exn_str e0
             /\ (isinstance_RequestException e0 = true ->
                 exn_class exc = APIClientError)
             /\ (isinstance_RequestException e0 = false -> exc = e0)).
Proof.
  assert (Hgen : forall rq : Request,
    let m := try_except (requests_request rq) HttpClient.rewrap st in
    snd m = set_requests_made S st
    /\ (forall r, network st (requests_made st) rq = Returned r ->
                  fst m = Returned r)
    /\ (forall exc, fst m = Raised exc ->
          isinstance_RequestException exc = false
          /\ exists e0, network st (requests_made st) rq = Raised e0
               /\ exn_str exc = exn_str e0
               /\ (isinstance_RequestException e0 = true ->
                   exn_class exc = APIClientError)
               /\ (isinstance_RequestException e0 = false -> exc = e0))).
  { intros rq. cbv zeta.
    unfold try_except, requests_request, HttpClient.rewrap, raise.
    destruct (network st (requests_made st) rq) as [r|e0]; cbn [fst snd].
    - split; [reflexivity |]. split; [intros r' [= <-]; reflexivity |].
      intros exc [=].
    - destruct (isinstance_RequestException e0) eqn:E; cbn [fst snd];
        (split; [reflexivity |]); (split; [intros r [=] |]);
        intros exc [= <-].
      + split; [reflexivity |]. exists e0.
        split; [reflexivity |]. split; [reflexivity |].
        split; [reflexivity | congruence].
      + split; [exact E |]. exists e0.
        split; [reflexivity |]. split; [reflexivity |].
        split; [congruence | reflexivity]. }
  intros answer_get answer_post.
  destruct (Hgen (get_request (config st) path)) as (Hg1 & Hg2 & Hg3).
  destruct (Hgen (post_request (config st) path body)) as (Hp1 & Hp2 & Hp3).
  repeat split; try assumption.
  - apply Hg3. assumption.
  - apply Hg3. assumption.
  - apply Hp3. assumption.
  - apply Hp3. assumption.
Qed.

Lemma client_wraps_request_exceptions_witness :
  let st := Sample.fresh (Sample.always (Raised Sample.refused)) in
  isinstance_RequestException Sample.refused = true
  /\ fst (HttpClient.get "/users/2" st)
     = Raised (Exn APIClientError "Connection refused")
  /\ isinstance_RequestException (Exn APIClientError "Connection refused") = false.
Proof.
  intros st.
  destruct (client_wraps_request_exceptions "/users/2" None st)
    as (_ & _ & _ & _ & Hget & _).
  split; [reflexivity |]. split; [reflexivity |].
  apply (Hget (Exn APIClientError "Connection refused")). reflexivity.
Defined.

(** ** More on the orchestrator *)

Lemma state_after_request (rq : Request) (st : State) :
  snd (try_except (requests_request rq) HttpClient.rewrap st)
  = set_requests_made S st.
Proof.
  unfold try_except, requests_request, HttpClient.rewrap, raise.
  destruct (network st (requests_made st) rq) as [r|e0]; [reflexivity |].
  destruct (isinstance_RequestException e0); reflexivity.
Qed.

Lemma state_after_get (path : string) (st : State) :
  snd (HttpClient.get path st) = set_requests_made S st.
Proof. unfold HttpClient.get. apply state_after_request. Qed.

Lemma state_after_post (path : string) (body : option json) (st : State) :
  snd (HttpClient.post path body st) = set_requests_made S st.
Proof. unfold HttpClient.post. apply state_after_request. Qed.

Lemma log_result_line (result : TestResult) (st : State) :
  _log_result result st
  = (Returned tt, set_log (fun l => l ++ [log_line result]) st).
Proof. reflexivity. Qed.

Lemma verdict_for_name (self : State) (test_name : string)
    (o : outcome Response) (expected_status : Z)
    (required_json_paths : option (list string)) :
  name (verdict_for self test_name o expected_status required_json_paths)
  = test_name.
Proof.
  unfold verdict_for. destruct o as [response|exc]; [| reflexivity].
  destruct (_validate_response self test_name response expected_status
              required_json_paths) as [v|exc] eqn:Hv; [| reflexivity].
  apply validate_returned in Hv as (ok & msgs & _ & ->). reflexivity.
Qed.

Lemma run_invocation_frame (i : Invocation) (st : State) :
  exists v : TestResult,
    run_invocation i st
    = (Returned v,
       set_log (fun l => l ++ [log_line v])
         (set_results (fun l => l ++ [v]) (set_requests_made S st)))
    /\ name v = name_of i.
Proof.
  destruct i as [test_name path expected_status paths
                | test_name path payload expected_status paths];
    cbn [run_invocation name_of].
  - rewrite run_get_test_unfold. cbv zeta. unfold recorded.
    rewrite log_result_line. cbn [snd].
    rewrite !state_after_get.
    eexists. split; [reflexivity | apply verdict_for_name].
  - rewrite run_post_test_unfold. cbv zeta. unfold recorded.
    rewrite log_result_line. cbn [snd].
    rewrite !state_after_post.
    eexists. split; [reflexivity | apply verdict_for_name].
Qed.


Lemma run_logs_every_verdict_aux (invs : list Invocation) (st : State) :
  exists (vs : list TestResult) (st' : State),
    run_invocations invs st = (Returned vs, st')
    /\ map name vs = map name_of invs
    /\ results st' = results st ++ vs
    /\ log st' = log st ++ map log_line vs
    /\ requests_made st' = (requests_made st + length invs)%nat.
Proof.
  revert st. induction invs as [|i invs IH]; intros st.
  - exists [], st. cbn. rewrite !app_nil_r. repeat split. lia.
  - destruct (run_invocation_frame i st) as (v & Hv & Hname).
    destruct (IH (set_log (fun l => l ++ [log_line v])
                    (set_results (fun l => l ++ [v]) (set_requests_made S st))))
      as (vs & st2 & Hvs & Hnames & Hres & Hlog & Hreq).
    exists (v :: vs), st2.
    cbn [run_invocations]. unfold bind at 1. rewrite Hv.
    unfold bind at 1. rewrite Hvs. unfold ret.
    split; [reflexivity |].
    split; [cbn; now rewrite Hname, Hnames |].
    split; [rewrite Hres; cbn; now rewrite <- app_assoc |].
    split; [rewrite Hlog; cbn; now rewrite <- app_assoc |].
    rewrite Hreq. cbn. lia.
Qed.

(** X9. A run of several tests goes through all of them, in order: n
    invocations issue n requests and give n Verdicts, and the log receives
    one line for each Verdict in the order of the results.  A failing test
    stops nothing. *)
Theorem run_logs_every_verdict (invs : list Invocation) (st : State) :
  exists (vs : list TestResult) (st' : State),
    run_invocations invs st = (Returned vs, st')
    /\ map name vs = map name_of invs
    /\ results st' = results st ++ vs
    /\ log st' = log st ++ map log_line vs
    /\ requests_made st' = (requests_made st + length invs)%nat.
Proof. apply run_logs_every_verdict_aux. Qed.

(** X10. [_validate_response] catches only [json.JSONDecodeError].  When
    [json()] raises an exception of another class while paths are required,
    the test method reports the test as an exception: the Verdict has no
    status code and no response time although a response had arrived, and
    the status and latency messages are not in it. *)
Theorem foreign_json_error_hides_response (test_name path : string)
    (payload : json) (expected_status : Z)
    (required_json_paths : option (list string)) (st : State)
    (response : Response) (exc : exn) :
  paths_truthy required_json_paths = true ->
  resp_json response = Raised exc ->
  isinstance_JSONDecodeError exc = false ->
  (fst (HttpClient.get path st) = Returned response ->
   fst (run_get_test test_name path expected_status required_json_paths st)
   = Returned (exception_result test_name exc))
  /\ (fst (HttpClient.post path (Some payload) st) = Returned response ->
      fst (run_post_test test_name path payload expected_status
             required_json_paths st)
      = Returned (exception_result test_name exc)).
Proof.
  intros Hpaths Hjson Hclass.
  assert (Hval : forall self,
    _validate_response self test_name response expected_status
      required_json_paths = Raised exc).
  { intros self. unfold _validate_response. rewrite run_checks_eq. cbv zeta.
    now rewrite Hpaths, Hjson, Hclass. }
  split; intros Hget.
  - rewrite run_get_test_unfold. cbv zeta. cbn [fst].
    rewrite Hget. unfold verdict_for. now rewrite Hval.
  - rewrite run_post_test_unfold. cbv zeta. cbn [fst].
    rewrite Hget. unfold verdict_for. now rewrite Hval.
Qed.

(** ** More on the validator *)

Lemma violation_count_zero (self : State) (response : Response)
    (expected_status : Z) (required_json_paths : option (list string)) :
  violation_count self response expected_status required_json_paths = O
  <-> expected_messages self response expected_status required_json_paths = [].
Proof.
  rewrite <- expected_messages_length.
  destruct (expected_messages self response expected_status required_json_paths);
    simpl; split; congruence.
Qed.

(** X11. A Verdict of the validator passes exactly when no check is
    violated: the status code is the expected one, the elapsed time is not
    greater than the limit, and, when paths are required, the body decodes
    and every required path is found in it.  Passing or failing, it carries
    the name, the status code and the elapsed milliseconds of the
    response. *)
Theorem validation_passes_iff_clean (self : State) (test_name : string)
    (response : Response) (expected_status : Z)
    (required_json_paths : option (list string)) (v : TestResult) :
  _validate_response self test_name response expected_status required_json_paths
    = Returned v ->
  (success v = true
   <-> resp_status_code response = expected_status
       /\ PyFloat.gt (elapsed_ms_of response) (max_response_time_ms (config self))
          = false
       /\ (paths_truthy required_json_paths = true ->
           exists payload : json,
             resp_json response = Returned payload
             /\ forall p : string,
                  In p (paths_of required_json_paths) ->
                  _has_json_path payload p = true))
  /\ (success v = true
      <-> violation_count self response expected_status required_json_paths = O)
  /\ name v = test_name
  /\ status_code v = Some (resp_status_code response)
  /\ response_time_ms v = Some (elapsed_ms_of response).
Proof.
  intros Hv.
  apply validate_returned in Hv as (ok & msgs & Hrun & ->).
  cbn [success name status_code response_time_ms].
  pose proof Hrun as Hrun'.
  apply run_checks_returned in Hrun' as [Hmsgs Hok].
  split; [| split; [| repeat split]].
  - assert (Hok2 : ok = negb (status_violated response expected_status)
                        && negb (latency_violated self response)
                        && (if paths_truthy required_json_paths
                            then match resp_json response with
                                 | Returned payload =>
                                     forallb (_has_json_path payload)
                                       (paths_of required_json_paths)
                                 | Raised _ => false
                                 end
                            else true)).
    { rewrite run_checks_eq in Hrun. cbv zeta in Hrun.
      destruct (paths_truthy required_json_paths).
      - destruct (resp_json response) as [payload|exc].
        + now injection Hrun as <- _.
        + destruct (isinstance_JSONDecodeError exc); [| discriminate].
          injection Hrun as <- _. now rewrite andb_false_r.
      - injection Hrun as <- _. now rewrite andb_true_r. }
    rewrite Hok2, !andb_true_iff, !negb_true_iff.
    unfold status_violated, latency_violated.
    rewrite negb_false_iff, Z.eqb_eq.
    destruct (paths_truthy required_json_paths).
    + destruct (resp_json response) as [payload|exc].
      * rewrite forallb_forall. split.
        -- intros [[He Hgt] Hall]. split; [exact He |]. split; [exact Hgt |].
           intros _. exists payload. split; [reflexivity | exact Hall].
        -- intros (He & Hgt & Hall).
           destruct (Hall eq_refl) as (d & [= <-] & Hd). tauto.
      * split; [intros [_ [=]] |].
        intros (_ & _ & Hall). destruct (Hall eq_refl) as (d & [=] & _).
    + split; [intros [[He Hgt] _] | intros (He & Hgt & _)]; repeat split;
        try assumption; discriminate.
  - rewrite violation_count_zero, <- Hmsgs, Hok.
    destruct msgs; split; congruence.
Qed.

(** X12. Without required paths the body is never decoded: when the list is
    absent or empty the validator returns a Verdict whatever [json()] would
    do, the same for both and the same for any body, and it passes exactly
    on the status and the latency. *)
Theorem no_required_paths_skips_body (self : State) (test_name : string)
    (response : Response) (expected_status : Z) (body : outcome json) :
  _validate_response self test_name response expected_status (Some [])
  = _validate_response self test_name response expected_status None
  /\ _validate_response self test_name (with_json response body)
       expected_status None
     = _validate_response self test_name response expected_status None
  /\ exists v : TestResult,
       _validate_response self test_name response expected_status None
         = Returned v
       /\ (success v = true
           <-> resp_status_code response = expected_status
               /\ PyFloat.gt (elapsed_ms_of response)
                    (max_response_time_ms (config self)) = false).
Proof.
  split; [reflexivity |]. split; [reflexivity |].
  unfold _validate_response. rewrite run_checks_eq. cbv zeta.
  unfold status_violated, latency_violated. cbn [paths_truthy].
  destruct (Z.eqb_spec (resp_status_code response) expected_status) as [He|He];
    destruct (PyFloat.gt (elapsed_ms_of response)
                (max_response_time_ms (config self)));
    cbn [negb andb app]; eexists; (split; [reflexivity |]);
    cbn [success]; split; try discriminate; try tauto;
    intros [H1 H2]; congruence.
Qed.

Lemma first_char_not_empty (s : string) (c : ascii) :
  first_char s = Some c -> s <> "".
Proof. intros H ->. discriminate H. Qed.

(** X13. The explanation of a Verdict is never empty: every Verdict a test
    method returns has a [details] that is not the empty string, be it the
    sentinel, the failure messages or the exception message. *)
Theorem details_never_empty (i : Invocation) (st : State) :
  exists v : TestResult,
    fst (run_invocation i st) = Returned v /\ details v <> "".
Proof.
  assert (Hvf : forall self n o e p, details (verdict_for self n o e p) <> "").
  { intros self n o e p. unfold verdict_for.
    assert (Hexc : forall exc, details (exception_result n exc) <> "").
    { intros exc. apply (first_char_not_empty _ "E"). reflexivity. }
    destruct o as [response|exc]; [| apply Hexc].
    destruct (_validate_response self n response e p) as [v|exc] eqn:Hv;
      [| apply Hexc].
    apply validate_returned in Hv as (ok & msgs & Hrun & ->).
    apply run_checks_returned in Hrun as [Hmsgs _].
    cbn [details]. destruct msgs as [|m0 msgs].
    - apply (first_char_not_empty _ "A"). reflexivity.
    - pose proof (expected_messages_are_failures self response e p) as Hall.
      rewrite <- Hmsgs in Hall. apply Forall_cons_1 in Hall as [Hm0 _].
      destruct (failure_message_first_char m0 Hm0) as [H | [H | H]];
        eapply first_char_not_empty; apply first_char_join; exact H. }
  destruct i as [n path e p | n path payload e p]; cbn [run_invocation].
  - rewrite run_get_test_unfold. cbv zeta. eexists. split; [reflexivity |].
    apply Hvf.
  - rewrite run_post_test_unfold. cbv zeta. eexists. split; [reflexivity |].
    apply Hvf.
Qed.

Lemma foreign_json_error_hides_response_witness :
  let response := {| resp_status_code := 404;
                     resp_elapsed_total_seconds := PyFloat.of_Z 1;
                     resp_json := Raised (Exn OtherException "Expecting value") |} in
  let st := Sample.fresh (Sample.always (Returned response)) in
  fst (HttpClient.get "/users/2" st) = Returned response
  /\ fst (run_get_test "GET user" "/users/2" 200 (Some ["data.id"]) st)
     = Returned {| name := "GET user"; success := false; status_code := None;
                   response_time_ms := None;
                   details := "Exception while executing test: Expecting value" |}.
Proof.
  intros response st. split; [reflexivity |].
  apply (foreign_json_error_hides_response "GET user" "/users/2" JNull 200
           (Some ["data.id"]) st response (Exn OtherException "Expecting value"));
    reflexivity.
Defined.

Lemma validation_passes_iff_clean_witness :
  let self := Sample.fresh Sample.in_turn in
  exists v : TestResult,
    _validate_response self "GET single user (id=2)" Sample.at_limit 200
      (Some ["data.id"]) = Returned v
    /\ violation_count self Sample.at_limit 200 (Some ["data.id"]) = O
    /\ success v = true.
Proof.
  intros self. eexists. split; [vm_compute; reflexivity |].
  split; [reflexivity |].
  edestruct (validation_passes_iff_clean self "GET single user (id=2)"
               Sample.at_limit 200 (Some ["data.id"])) as (_ & Hcount & _).
  - vm_compute. reflexivity.
  - apply Hcount. reflexivity.
Defined.

(** ** More on the report, the log and the summary *)



Lemma format_2f_not_placeholder (x : float) : PyFloat.format_2f x <> "N/A".
Proof.
  destruct x as [s|s| |s m e]; simpl.
  - destruct s; discriminate.
  - destruct s; discriminate.
  - discriminate.
  - unfold PyFloat.fixed2. destruct s; [discriminate |].
    rewrite append_nil_l. intros H.
    apply (f_equal first_char) in H. now apply of_int_first_char in H.
Qed.

(** X15. In the log line the placeholder "N/A" stands for an absent response
    time and for nothing else: a response time that is there, zero included,
    is logged as a number with two decimals. *)
Theorem log_placeholder_only_when_absent (o : option float) :
  (log_time_str o = "N/A" <-> o = None)
  /\ (forall t : float, o = Some t -> log_time_str o = PyFloat.format_2f t).
Proof.
  split.
  - destruct o as [t|]; simpl; [| split; reflexivity].
    split; [intros H; now apply format_2f_not_placeholder in H | discriminate].
  - intros t ->. reflexivity.
Qed.

Lemma log_placeholder_only_when_absent_witness :
  log_time_str (Some (S754_zero false)) = "0.00".
Proof.
  destruct (log_placeholder_only_when_absent (Some (S754_zero false))) as [_ H].
  rewrite (H (S754_zero false) eq_refl). reflexivity.
Defined.








(** X18. [run_all_tests] runs its four tests in the order written, each
    under its own name, issuing four requests; the list it returns is the
    list of Verdicts it appended to the results of the suite, so the report
    written from the suite and the summary printed from the returned list
    show the same Verdicts. *)
Theorem run_all_tests_returns_appended (st : State) :
  exists (vs : list TestResult) (st' : State),
    run_all_tests st = (Returned vs, st')
    /\ run_invocations all_tests st = (Returned vs, st')
    /\ map name vs = map name_of all_tests
    /\ results st' = results st ++ vs
    /\ log st' = log st ++ map log_line vs
    /\ requests_made st' = (requests_made st + 4)%nat.
Proof.
  destruct (run_logs_every_verdict_aux all_tests st)
    as (vs & st' & Hrun & Hnames & Hres & Hlog & Hreq).
  exists vs, st'.
  split; [| repeat split; assumption].
  rewrite <- Hrun. unfold run_all_tests, all_tests.
  cbn [run_invocations run_invocation]. unfold bind, ret.
  destruct (run_invocation_frame
              (GetTest "GET single user (id=2)" "/users/2" 200
                 (Some ["data.id"; "data.email"; "data.first_name";
                        "data.last_name"])) st) as (v1 & H1 & _).
  cbn [run_invocation] in H1. rewrite H1.
  match goal with |- context [run_get_test ?n ?p ?e ?r ?s] =>
    destruct (run_invocation_frame (GetTest n p e r) s) as (v2 & H2 & _);
    cbn [run_invocation] in H2; rewrite H2 end.
  match goal with |- context [run_post_test ?n ?p ?b ?e ?r ?s] =>
    destruct (run_invocation_frame (PostTest n p b e r) s) as (v3 & H3 & _);
    cbn [run_invocation] in H3; rewrite H3 end.
  match goal with |- context [run_post_test ?n ?p ?b ?e ?r ?s] =>
    destruct (run_invocation_frame (PostTest n p b e r) s) as (v4 & H4 & _);
    cbn [run_invocation] in H4; rewrite H4 end.
  reflexivity.
Qed.

(** X19. In the report and in the summary the placeholder "N/A" stands
    for a response time that is absent or that is a zero, positive or
    negative; every other response time is shown as a number with two
    decimals. *)
Theorem report_placeholder_absent_or_zero (o : option float) :
  (response_time_str o = "N/A"
   <-> o = None \/ exists s : bool, o = Some (S754_zero s))
  /\ (forall t : float,
        o = Some t -> PyFloat.truthy t = true ->
        response_time_str o = PyFloat.format_2f t).
Proof.
  split; [apply latency_placeholder |].
  intros t -> Ht. now apply nonzero_latency_is_rendered.
Qed.

Lemma report_placeholder_absent_or_zero_witness :
  PyFloat.truthy (PyFloat.of_Z 950) = true
  /\ response_time_str (Some (PyFloat.of_Z 950)) = "950.00"
  /\ response_time_str (Some (S754_zero true)) = "N/A".
Proof.
  destruct (report_placeholder_absent_or_zero (Some (PyFloat.of_Z 950)))
    as [_ Hshown].
  split; [reflexivity |].
  split; [now rewrite (Hshown _ eq_refl eq_refl) | reflexivity].
Defined.

(** X20. The validator raises in one case only: paths are required and
    [json()] raises an exception that is no [json.JSONDecodeError]; it then
    raises that very exception.  In every other case it returns a
    Verdict. *)
Theorem validator_raises_only_foreign_errors (self : State) (test_name : string)
    (response : Response) (expected_status : Z)
    (required_json_paths : option (list string)) (exc : exn) :
  _validate_response self test_name response expected_status required_json_paths
    = Raised exc
  <-> paths_truthy required_json_paths = true
      /\ resp_json response = Raised exc
      /\ isinstance_JSONDecodeError exc = false.
Proof.
  unfold _validate_response. rewrite run_checks_eq. cbv zeta.
  destruct (paths_truthy required_json_paths).
  - destruct (resp_json response) as [payload|e0].
    + split; [discriminate | intros (_ & [=] & _)].
    + destruct (isinstance_JSONDecodeError e0) eqn:E.
      * split; [discriminate |]. intros (_ & [= ->] & H). congruence.
      * split; [intros [= ->]; auto |]. now intros (_ & [= ->] & _).
  - split; [discriminate | intros ([=] & _)].
Qed.
